(** * The [snap] state module ([states/_states/snap.py])

    A shallow embedding of the Salt state module that purges snaps:
    the output normaliser [_cleanup_stdout], the presence prober
    [_snapd_is_installed] and the two state functions [purged] and
    [assert_all_removed], followed by the properties established for
    them.

    Python strings are sequences of Unicode code points; they are modelled
    as lists of code points so that the behaviour of [str.splitlines] and
    [str.rstrip] on the non-ASCII separators is part of the model. *)

From Stdlib Require Import NArith ZArith Ascii String List Bool Lia.
From stdpp Require Import base option list strings gmap.

Set Default Proof Using "Type".
Local Open Scope N_scope.
Local Open Scope list_scope.

(** ** Strings *)

Definition char := N.
Abbreviation str := (list char).

Fixpoint of_string (s : string) : str :=
  match s with
  | EmptyString => []
  | String a s' => N_of_ascii a :: of_string s'
  end.

Definition LF : char := 10.
Definition CR : char := 13.
Definition DQUOTE : char := 34.

(** [str.splitlines] breaks on exactly these code points. *)
Definition is_linebreak (c : char) : bool :=
  (c =? 10) || (c =? 11) || (c =? 12) || (c =? 13)
  || (c =? 28) || (c =? 29) || (c =? 30)
  || (c =? 133) || (c =? 8232) || (c =? 8233).

(** [str.rstrip()] without argument strips the code points for which
    [str.isspace] holds. *)
Definition is_space (c : char) : bool :=
  ((9 <=? c) && (c <=? 13)) || ((28 <=? c) && (c <=? 32))
  || (c =? 133) || (c =? 160) || (c =? 5760)
  || ((8192 <=? c) && (c <=? 8202))
  || (c =? 8232) || (c =? 8233) || (c =? 8239) || (c =? 8287)
  || (c =? 12288).

(** The character set handed to [rstrip] in [_cleanup_stdout]:
    slash, hyphen, backslash and vertical bar. *)
Definition is_spinner (c : char) : bool :=
  (c =? 47) || (c =? 45) || (c =? 92) || (c =? 124).

(** [s.splitlines()]: the segments between line boundaries, a carriage
    return directly followed by a line feed counting as one boundary; no
    segment is produced after a boundary that ends the string. *)
Fixpoint splitlines (s : str) : list str :=
  match s with
  | [] => []
  | c :: s' =>
      if is_linebreak c then
        [] :: match s' with
              | c' :: s'' =>
                  if (c =? CR) && (c' =? LF) then splitlines s''
                  else splitlines s'
              | [] => []
              end
      else
        match splitlines s' with
        | [] => [[c]]
        | l :: ls => (c :: l) :: ls
        end
  end.

(** [s.rstrip(chars)], the set [chars] given as a predicate. *)
Fixpoint rstrip (p : char -> bool) (s : str) : str :=
  match s with
  | [] => []
  | c :: s' =>
      match rstrip p s' with
      | [] => if p c then [] else [c]
      | t => c :: t
      end
  end.

(** [[k for k, _ in itertools.groupby(ls)]]: one entry per run of
    consecutive equal elements. *)
Fixpoint groupby_keys (ls : list str) : list str :=
  match ls with
  | [] => []
  | l :: rest =>
      match rest with
      | [] => [l]
      | l' :: _ =>
          if bool_decide (l = l') then groupby_keys rest
          else l :: groupby_keys rest
      end
  end.

(** [sep.join(ls)]. *)
Fixpoint join (sep : str) (ls : list str) : str :=
  match ls with
  | [] => []
  | l :: rest =>
      match rest with
      | [] => l
      | _ :: _ => l ++ sep ++ join sep rest
      end
  end.

(** ** The output normaliser

    The [log.debug] calls of the source only write to the logger and are
    left out. *)
Definition _cleanup_stdout (raw_stdout : str) : str :=
  let stdout_lines := splitlines raw_stdout in
  let stdout_lines := map (rstrip is_spinner) stdout_lines in
  let stdout_lines := map (rstrip is_space) stdout_lines in
  let stdout_lines := groupby_keys stdout_lines in
  join [LF] stdout_lines.

(** ** Values, collaborators and effects *)

(** The Python values a collaborator may hand back where the source
    does not fix the type. *)
#[warnings="-register-all"]
Inductive pyval : Type :=
  | PyNone
  | PyBool (b : bool)
  | PyInt (z : Z)
  | PyStr (s : str)
  | PyDict (d : list (str * pyval)).

(** Python truthiness, as applied by [if] and [not]. *)
Definition truthy (v : pyval) : bool :=
  match v with
  | PyNone => false
  | PyBool b => b
  | PyInt z => negb (z =? 0)%Z
  | PyStr s => negb (bool_decide (s = []))
  | PyDict d => match d with [] => false | _ :: _ => true end
  end.

(** The dictionary returned by [cmd.run_all]. *)
Record cmd_output : Type := mk_cmd_output {
  pid : Z;
  retcode : Z;
  stdout : str;
  stderr : str
}.

(** The dictionary [ret] built by both state functions; [result] is
    [None], [True] or [False]. *)
Record StateReturn : Type := mk_ret {
  name : str;
  result : option bool;
  changes : gmap string str;
  comment : str
}.

Definition set_result (r : option bool) (ret : StateReturn) : StateReturn :=
  {| name := name ret; result := r; changes := changes ret;
     comment := comment ret |}.
Definition set_comment (c : str) (ret : StateReturn) : StateReturn :=
  {| name := name ret; result := result ret; changes := changes ret;
     comment := c |}.
Definition set_changes (d : gmap string str) (ret : StateReturn)
  : StateReturn :=
  {| name := name ret; result := result ret; changes := d;
     comment := comment ret |}.

Inductive exn : Type := Exception (msg : str).

Inductive outcome (A : Type) : Type :=
  | Ret (a : A)
  | Raise (e : exn).
Arguments Ret {A} a.
Arguments Raise {A} e.

(** The calls the module makes through [__salt__]. *)
Inductive event : Type :=
  | PkgInfoInstalled (pkg : str) (failhard : bool)
  | CmdRunAll (cmd : str)
  | CmdRetcode (cmd : str) (ignore_retcode : bool).

(** [s.startswith(prefix)]. *)
Fixpoint startswith (s prefix : str) : bool :=
  match prefix, s with
  | [], _ => true
  | _ :: _, [] => false
  | p :: prefix', c :: s' => (c =? p) && startswith s' prefix'
  end.

Section Salt.

(** The machine the collaborators act on. *)
Context {Host : Type}.

Record World : Type := mk_world {
  host : Host;
  trace : list event
}.

(** A computation reads and updates the world and returns a value or
    propagates an exception. *)
Definition M (A : Type) : Type := World -> outcome A * World.

Definition unit_M {A} (a : A) : M A := fun w => (Ret a, w).

Definition bind_M {A B} (m : M A) (f : A -> M B) : M B :=
  fun w =>
    match m w with
    | (Ret a, w') => f a w'
    | (Raise e, w') => (Raise e, w')
    end.

Notation "x <- m ;; f" := (bind_M m (fun x => f))
  (at level 100, m at next level, right associativity).

(** [__salt__["pkg.info_installed"]], [__salt__["cmd.run_all"]],
    [__salt__["cmd.retcode"]] and [__opts__["test"]]. *)
Variable pkg_info_installed : str -> bool -> Host -> outcome pyval * Host.
Variable cmd_run_all : str -> Host -> outcome cmd_output * Host.
Variable cmd_retcode : str -> bool -> Host -> outcome Z * Host.
Variable opts_test : bool.

Definition salt_pkg_info_installed (pkg : str) (failhard : bool)
  : M pyval :=
  fun w =>
    let (o, h) := pkg_info_installed pkg failhard (host w) in
    (o, {| host := h; trace := trace w ++ [PkgInfoInstalled pkg failhard] |}).

Definition salt_cmd_run_all (cmd : str) : M cmd_output :=
  fun w =>
    let (o, h) := cmd_run_all cmd (host w) in
    (o, {| host := h; trace := trace w ++ [CmdRunAll cmd] |}).

Definition salt_cmd_retcode (cmd : str) (ignore_retcode : bool) : M Z :=
  fun w =>
    let (o, h) := cmd_retcode cmd ignore_retcode (host w) in
    (o, {| host := h;
           trace := trace w ++ [CmdRetcode cmd ignore_retcode] |}).

(** *** The presence prober *)
Definition _snapd_is_installed : M pyval :=
  salt_pkg_info_installed (of_string "snapd") false.

(** The formatted strings of [purged]. *)
Definition quoted (name : str) : str := [DQUOTE] ++ name ++ [DQUOTE].

Definition not_installed_msg (name : str) : str :=
  of_string "snap " ++ quoted name ++ of_string " is not installed".

(** *** The purge operation *)
Definition purged (name : str) : M StateReturn :=
  let ret := {| name := name; result := None; changes := ∅;
                comment := [] |} in
  installed <- _snapd_is_installed ;;
  if negb (truthy installed) then
    let ret := set_result (Some true) ret in
    let ret := set_comment
      (of_string "Cannot purge snap " ++ quoted name
       ++ of_string " because snapd is not installed.") ret in
    unit_M ret
  else if opts_test then
    let ret := set_result None ret in
    let ret := set_comment (of_string "Test mode is not supported.") ret in
    unit_M ret
  else
    cmd_output <- salt_cmd_run_all
                    (of_string "snap remove --purge " ++ name) ;;
    if bool_decide (stderr cmd_output = not_installed_msg name) then
      let ret := set_result (Some true) ret in
      let ret := set_comment
        (of_string "Snap " ++ quoted name
         ++ of_string " is already removed.") ret in
      unit_M ret
    else
      let stdout := _cleanup_stdout (stdout cmd_output) in
      let stderr := stderr cmd_output in
      if negb (retcode cmd_output =? 0)%Z then
        let ret := set_result (Some false) ret in
        let ret := set_comment
          (of_string "Non-zero return code when purging snap "
           ++ quoted name ++ of_string ".") ret in
        let ret := set_changes
          (<["stdout" := stdout]> (<["stderr" := stderr]> ∅)) ret in
        unit_M ret
      else
        rc <- salt_cmd_retcode (of_string "snap list " ++ name) true ;;
        let is_still_installed := (rc =? 0)%Z in
        if is_still_installed then
          let ret := set_result (Some false) ret in
          let ret := set_comment
            (of_string "Purging snap " ++ quoted name
             ++ of_string " was unsuccessful.") ret in
          let ret := set_changes
            (<["stdout" := stdout]> (<["stderr" := stderr]> ∅)) ret in
          unit_M ret
        else
          let ret := set_result (Some true) ret in
          let ret := set_comment
            (of_string "Snap " ++ quoted name
             ++ of_string " was successfully purged.") ret in
          let ret := set_changes
            (<["old" := of_string "installed"]>
               (<["new" := of_string "removed"]>
                  (<["stdout" := stdout]> (<["stderr" := stderr]> ∅))))
            ret in
          unit_M ret.

(** *** The assertion operation *)
Definition assert_all_removed (name : str) : M StateReturn :=
  let ret := {| name := name; result := None; changes := ∅;
                comment := [] |} in
  installed <- _snapd_is_installed ;;
  if negb (truthy installed) then
    let ret := set_result (Some true) ret in
    let ret := set_comment
      (of_string "Cannot check for installed snaps because snapd is not installed. Assuming that all snaps are removed.")
      ret in
    unit_M ret
  else
    cmd_output <- salt_cmd_run_all (of_string "snap list") ;;
    if negb (bool_decide (stdout cmd_output = [])) then
      let ret := set_result (Some false) ret in
      let ret := set_comment
        (join [LF]
           [ of_string "It seems like at least one snap is still installed.";
             of_string "Output:";
             stdout cmd_output;
             of_string "Errors:";
             if negb (bool_decide (stderr cmd_output = []))
             then stderr cmd_output else of_string "(no errors)" ])
        ret in
      unit_M ret
    else if startswith (stderr cmd_output)
              (of_string "No snaps are installed") then
      let ret := set_result (Some true) ret in
      let ret := set_comment (of_string "No snaps are installed.") ret in
      unit_M ret
    else
      let ret := set_result (Some false) ret in
      let ret := set_comment
        (join [LF]
           [ of_string "Listing all installed snaps failed due to error.";
             stderr cmd_output ])
        ret in
      unit_M ret.

End Salt.

Arguments World : clear implicits.
Arguments M : clear implicits.

(** The default argument of [assert_all_removed]. *)
Definition assert_all_removed_default_name : str :=
  of_string "assert_all_removed".

(** The example of the comment in [_cleanup_stdout]: two redraws of one
    progress line, each after a carriage return. *)
Definition progress_frames : str :=
  [CR] ++ of_string "Removing snap abc     /"
  ++ [CR] ++ of_string "Removing snap abc     -".

(** ** Auxiliary notions used in the statements *)

(** The last character of [s] satisfies [p]. *)
Definition ends_with (p : char -> bool) (s : str) : bool :=
  match last s with
  | Some c => p c
  | None => false
  end.

(** [s] ends in a line feed. *)
Definition ends_with_newline (s : str) : bool :=
  ends_with (fun c => c =? LF) s.

(** No line of [ls] ends in a spinner character. *)
Definition no_trailing_spinner (ls : list str) : bool :=
  forallb (fun l => negb (ends_with is_spinner l)) ls.

(** No two neighbouring entries of [ls] are equal. *)
Fixpoint no_consecutive_duplicates (ls : list str) : bool :=
  match ls with
  | [] => true
  | l :: rest =>
      match rest with
      | [] => true
      | l' :: _ => negb (bool_decide (l = l')) && no_consecutive_duplicates rest
      end
  end.

(** [s] holds no line boundary. *)
Definition no_linebreak (s : str) : Prop :=
  Forall (fun c => is_linebreak c = false) s.

(** [splitlines] gives no line after a line feed that ends the string:
    what [splitlines] makes of lines joined by line feeds. *)
Definition drop_last_empty (ls : list str) : list str :=
  match last ls with
  | Some [] => removelast ls
  | _ => ls
  end.

(** [s] holds no carriage return. *)
Definition no_carriage_return (s : str) : bool :=
  forallb (fun c => negb (c =? CR)) s.

(** Every line boundary of [s] is a line feed. *)
Definition only_LF_breaks (s : str) : bool :=
  forallb (fun c => implb (is_linebreak c) (c =? LF)) s.

(** [s.split(sep)] for a one-character separator. *)
Fixpoint split_on (sep : char) (s : str) : list str :=
  match s with
  | [] => [[]]
  | c :: s' =>
      if c =? sep then [] :: split_on sep s'
      else
        match split_on sep s' with
        | [] => [[c]]
        | l :: ls => (c :: l) :: ls
        end
  end.

(** The reading of "the input with only trailing whitespace trimmed from
    each line": the newline-separated lines of the input, each one
    right-stripped of whitespace, put together again. *)
Definition trim_trailing_whitespace (s : str) : str :=
  join [LF] (map (rstrip is_space) (split_on LF s)).

(** ** Sample machines

    Collaborators over a machine without state, used to run the state
    functions on concrete inputs. *)

Definition sample_world : World unit := {| host := tt; trace := [] |}.

(** A package query that finds snapd, and one that does not: with
    [failhard=False] Salt's [pkg.info_installed] hands back the mapping of
    the packages found, which is empty for a missing package. *)
Definition pkg_present : str -> bool -> unit -> outcome pyval * unit :=
  fun pkg _ h => (Ret (PyDict [(pkg, PyDict [])]), h).
Definition pkg_absent : str -> bool -> unit -> outcome pyval * unit :=
  fun _ _ h => (Ret (PyDict []), h).

(** [snap remove] reporting that the snap [abc] is not installed, with
    exit status 1. *)
Definition run_not_installed : str -> unit -> outcome cmd_output * unit :=
  fun _ h =>
    (Ret {| pid := 4711; retcode := 1; stdout := [];
            stderr := not_installed_msg (of_string "abc") |}, h).

(** [snap remove] succeeding with progress frames on stdout. *)
Definition run_removed : str -> unit -> outcome cmd_output * unit :=
  fun _ h =>
    (Ret {| pid := 4711; retcode := 0;
            stdout := progress_frames;
            stderr := [] |}, h).

(** [snap list] on a machine without snaps, and on one with a snap. *)
Definition run_list_empty : str -> unit -> outcome cmd_output * unit :=
  fun _ h =>
    (Ret {| pid := 4712; retcode := 0; stdout := [];
            stderr := of_string "No snaps are installed yet. Try 'snap install hello-world'." |},
     h).
Definition run_list_core : str -> unit -> outcome cmd_output * unit :=
  fun _ h =>
    (Ret {| pid := 4712; retcode := 0;
            stdout := of_string "core22 20240111 1122 latest/stable";
            stderr := [] |}, h).

(** [snap list abc] exiting with status 1, and with status 0. *)
Definition retcode_absent : str -> bool -> unit -> outcome Z * unit :=
  fun _ _ h => (Ret 1%Z, h).
Definition retcode_present : str -> bool -> unit -> outcome Z * unit :=
  fun _ _ h => (Ret 0%Z, h).

(** ** The rest of the module *)

(** [__virtualname__] and [__virtual__]: the name the module is loaded
    under. *)
Definition __virtualname__ : str := of_string "snap".
Definition __virtual__ : str := __virtualname__.

(** The value of [stdout_lines] that [_cleanup_stdout] joins. *)
Definition stdout_lines (raw_stdout : str) : list str :=
  groupby_keys
    (map (rstrip is_space) (map (rstrip is_spinner) (splitlines raw_stdout))).

(** The three command lines and the prefix [assert_all_removed] looks
    for. *)
Definition remove_cmd (name : str) : str :=
  of_string "snap remove --purge " ++ name.
Definition list_cmd (name : str) : str := of_string "snap list " ++ name.
Definition no_snaps_prefix : str := of_string "No snaps are installed".

(** More sample collaborators: a removal that fails with a message ending
    in a line feed, a package query and a command runner that raise, and a
    [snap list] that prints nothing at all. *)
Definition run_failed : str -> unit -> outcome cmd_output * unit :=
  fun _ h =>
    (Ret {| pid := 4711; retcode := 1;
            stdout := of_string "Removing snap abc     /";
            stderr := not_installed_msg (of_string "abc") ++ [LF] |}, h).
Definition run_other_snap : str -> unit -> outcome cmd_output * unit :=
  fun _ h =>
    (Ret {| pid := 4711; retcode := 1; stdout := [];
            stderr := not_installed_msg (of_string "abcd") |}, h).
Definition pkg_raises : str -> bool -> unit -> outcome pyval * unit :=
  fun _ _ h => (Raise (Exception (of_string "dpkg-query failed")), h).
Definition run_raises : str -> unit -> outcome cmd_output * unit :=
  fun _ h => (Raise (Exception (of_string "snap: command not found")), h).
Definition run_list_silent : str -> unit -> outcome cmd_output * unit :=
  fun _ h =>
    (Ret {| pid := 4712; retcode := 1; stdout := []; stderr := [] |}, h).
Definition run_list_core_warn : str -> unit -> outcome cmd_output * unit :=
  fun _ h =>
    (Ret {| pid := 4712; retcode := 0;
            stdout := of_string "core22 20240111 1122 latest/stable";
            stderr := of_string "WARNING: there is 1 new warning" |}, h).

(** The record and the world a successful purge of [abc] ends in, and the
    record [assert_all_removed] returns when [core22] is listed. *)
Definition removed_record : StateReturn :=
  {| name := of_string "abc"; result := Some true;
     changes := <["old" := of_string "installed"]>
                  (<["new" := of_string "removed"]>
                     (<["stdout" := _cleanup_stdout progress_frames]>
                        (<["stderr" := []]> ∅)));
     comment := of_string "Snap " ++ quoted (of_string "abc")
                ++ of_string " was successfully purged." |}.
Definition removed_world : World unit :=
  {| host := tt;
     trace := [PkgInfoInstalled (of_string "snapd") false;
               CmdRunAll (remove_cmd (of_string "abc"));
               CmdRetcode (list_cmd (of_string "abc")) true] |}.
Definition snaps_left_record : StateReturn :=
  {| name := assert_all_removed_default_name; result := Some false;
     changes := ∅;
     comment :=
       of_string "It seems like at least one snap is still installed."
       ++ [LF] ++ of_string "Output:"
       ++ [LF] ++ of_string "core22 20240111 1122 latest/stable"
       ++ [LF] ++ of_string "Errors:"
       ++ [LF] ++ of_string "WARNING: there is 1 new warning" |}.
Definition listed_world : World unit :=
  {| host := tt;
     trace := [PkgInfoInstalled (of_string "snapd") false;
               CmdRunAll (of_string "snap list")] |}.

(** A package query that answers with the boolean [True]. *)
Definition pkg_true : str -> bool -> unit -> outcome pyval * unit :=
  fun _ _ h => (Ret (PyBool true), h).

(** A progress line with [k] leftover frames: the letter a followed by
    [k] times a space and a hyphen. *)
Fixpoint redraw_residue (k : nat) : str :=
  match k with
  | O => of_string "a"
  | S k' => redraw_residue k' ++ of_string " -"
  end.

(** * Properties *)

(** ** Character classes *)

Lemma linebreak_is_space c : is_linebreak c = true -> is_space c = true.
Proof.
  unfold is_linebreak. intros H.
  repeat (apply orb_true_iff in H as [H | H]);
    apply N.eqb_eq in H; subst c; reflexivity.
Qed.

Lemma spinner_not_space c : is_spinner c = true -> is_space c = false.
Proof.
  unfold is_spinner. intros H.
  repeat (apply orb_true_iff in H as [H | H]);
    apply N.eqb_eq in H; subst c; reflexivity.
Qed.

Lemma spinner_not_linebreak c : is_spinner c = true -> is_linebreak c = false.
Proof.
  intros H. destruct (is_linebreak c) eqn:E; [|reflexivity].
  apply linebreak_is_space in E. apply spinner_not_space in H. congruence.
Qed.

(** A two-step induction principle for strings: [splitlines] consumes one
    or two characters per step. *)
Lemma str_ind2 (P : str -> Prop) :
  P [] -> (forall a, P [a]) ->
  (forall a b l, P l -> P (b :: l) -> P (a :: b :: l)) ->
  forall l, P l.
Proof.
  intros H0 H1 H2 l.
  assert (P l /\ forall a, P (a :: l)) as [H _]; [|exact H].
  induction l as [|b l [IH1 IH2]]; split; auto.
Qed.

(** ** [rstrip] *)

Lemma rstrip_nil p s : rstrip p s = [] <-> forallb p s = true.
Proof.
  induction s as [|c s IH]; simpl; [tauto|].
  destruct (rstrip p s) eqn:E.
  - destruct (p c); simpl; [tauto|]. split; discriminate.
  - split; [discriminate|]. intros [_ H]%andb_true_iff.
    apply IH in H. discriminate.
Qed.

Lemma ends_with_cons p c s :
  ends_with p (c :: s) = match s with [] => p c | _ :: _ => ends_with p s end.
Proof. destruct s; reflexivity. Qed.

Lemma rstrip_ends_with p s : ends_with p (rstrip p s) = false.
Proof.
  induction s as [|c s IH]; [reflexivity|]. simpl.
  destruct (rstrip p s) as [|d t] eqn:E.
  - destruct (p c) eqn:Ec; [reflexivity|]. unfold ends_with. simpl. exact Ec.
  - rewrite ends_with_cons. exact IH.
Qed.

Lemma rstrip_fixed p s : ends_with p s = false -> rstrip p s = s.
Proof.
  induction s as [|c s IH]; [reflexivity|].
  rewrite ends_with_cons. simpl. destruct s as [|d s].
  - simpl. intros ->. reflexivity.
  - intros H. rewrite (IH H). reflexivity.
Qed.

Lemma rstrip_changes p s : ends_with p s = true -> rstrip p s <> s.
Proof.
  intros H E. pose proof (rstrip_ends_with p s) as H'.
  rewrite E in H'. congruence.
Qed.

Lemma rstrip_idempotent p s : rstrip p (rstrip p s) = rstrip p s.
Proof. apply rstrip_fixed, rstrip_ends_with. Qed.

Lemma rstrip_Forall (Q : char -> Prop) p s :
  Forall Q s -> Forall Q (rstrip p s).
Proof.
  induction 1 as [|c s Hc Hs IH]; simpl; [constructor|].
  destruct (rstrip p s) eqn:E.
  - destruct (p c); repeat constructor; assumption.
  - constructor; assumption.
Qed.

Lemma rstrip_length p s : (length (rstrip p s) <= length s)%nat.
Proof.
  induction s as [|c s IH]; simpl; [lia|].
  destruct (rstrip p s); [destruct (p c)|]; simpl in *; lia.
Qed.

(** ** [splitlines] and [join] *)

Lemma splitlines_nil_inv s : splitlines s = [] -> s = [].
Proof.
  destruct s as [|c s]; [reflexivity|]. simpl.
  destruct (is_linebreak c); [discriminate|].
  destruct (splitlines s); discriminate.
Qed.

Lemma splitlines_cons2 a b l :
  splitlines (a :: b :: l) =
    if is_linebreak a then
      [] :: (if (a =? CR) && (b =? LF) then splitlines l
             else splitlines (b :: l))
    else match splitlines (b :: l) with
         | [] => [[a]]
         | x :: xs => (a :: x) :: xs
         end.
Proof. reflexivity. Qed.

Lemma splitlines_no_linebreak s : Forall no_linebreak (splitlines s).
Proof.
  induction s as [| a | a b l IH1 IH2] using str_ind2.
  - constructor.
  - simpl. destruct (is_linebreak a) eqn:E; repeat constructor. exact E.
  - rewrite splitlines_cons2.
    destruct (is_linebreak a) eqn:E.
    + constructor; [constructor|]. destruct ((a =? CR) && (b =? LF)); assumption.
    + destruct (splitlines (b :: l)) as [|x xs].
      * repeat constructor. exact E.
      * inversion IH2; subst. constructor; [constructor|]; assumption.
Qed.

Lemma splitlines_LF t : splitlines (LF :: t) = [] :: splitlines t.
Proof. destruct t; reflexivity. Qed.

Lemma splitlines_app l t :
  no_linebreak l ->
  splitlines (l ++ t) =
    match splitlines t with
    | [] => match l with [] => [] | _ :: _ => [l] end
    | x :: xs => (l ++ x) :: xs
    end.
Proof.
  induction 1 as [|c l Hc Hl IH].
  - simpl. destruct (splitlines t); reflexivity.
  - change ((c :: l) ++ t) with (c :: (l ++ t)).
    cbn [splitlines]. rewrite Hc, IH.
    destruct (splitlines t); [destruct l|]; reflexivity.
Qed.

Lemma splitlines_join ls :
  Forall no_linebreak ls ->
  splitlines (join [LF] ls) = drop_last_empty ls.
Proof.
  induction 1 as [|l rest Hl Hrest IH]; [reflexivity|].
  destruct rest as [|l2 rest].
  - cbn [join]. rewrite <- (app_nil_r l) at 1.
    rewrite splitlines_app by assumption. destruct l; reflexivity.
  - change (join [LF] (l :: l2 :: rest))
      with (l ++ LF :: join [LF] (l2 :: rest)).
    rewrite splitlines_app by assumption.
    rewrite splitlines_LF, app_nil_r, IH.
    unfold drop_last_empty. rewrite (last_cons_cons l l2 rest).
    destruct (last (l2 :: rest)) as [[|]|] eqn:E; reflexivity.
Qed.

Lemma last_join_LF ls :
  ls <> [] -> last (join [LF] (ls ++ [[]])) = Some LF.
Proof.
  intros Hne. induction ls as [|x ls IH]; [congruence|].
  destruct ls as [|y ls].
  - simpl. rewrite last_snoc. reflexivity.
  - change (join [LF] ((x :: y :: ls) ++ [[]]))
      with (x ++ LF :: join [LF] ((y :: ls) ++ [[]])).
    rewrite last_app, last_cons. rewrite IH by discriminate. reflexivity.
Qed.

(** ** [groupby_keys] *)

Lemma groupby_keys_cons2 l l' rest :
  groupby_keys (l :: l' :: rest) =
    if bool_decide (l = l') then groupby_keys (l' :: rest)
    else l :: groupby_keys (l' :: rest).
Proof. reflexivity. Qed.

Lemma no_consecutive_duplicates_cons2 l l' rest :
  no_consecutive_duplicates (l :: l' :: rest) =
    negb (bool_decide (l = l')) && no_consecutive_duplicates (l' :: rest).
Proof. reflexivity. Qed.

Lemma groupby_keys_cons l rest :
  exists t, groupby_keys (l :: rest) = l :: t.
Proof.
  revert l. induction rest as [|l' rest IH]; intros l.
  - exists []. reflexivity.
  - rewrite groupby_keys_cons2. case_bool_decide as E.
    + subst l'. apply IH.
    + eexists. reflexivity.
Qed.

Lemma groupby_keys_no_duplicates ls :
  no_consecutive_duplicates (groupby_keys ls) = true.
Proof.
  induction ls as [|l rest IH]; [reflexivity|].
  destruct rest as [|l' rest]; [reflexivity|].
  rewrite groupby_keys_cons2. case_bool_decide as E; [exact IH|].
  destruct (groupby_keys_cons l' rest) as [t Ht].
  rewrite Ht in IH |- *. rewrite no_consecutive_duplicates_cons2.
  rewrite IH, bool_decide_eq_false_2 by exact E. reflexivity.
Qed.

Lemma groupby_keys_fixed ls :
  no_consecutive_duplicates ls = true -> groupby_keys ls = ls.
Proof.
  induction ls as [|l rest IH]; [reflexivity|].
  destruct rest as [|l' rest]; [reflexivity|].
  rewrite no_consecutive_duplicates_cons2, groupby_keys_cons2.
  intros [E H]%andb_true_iff. apply negb_true_iff in E.
  rewrite E, (IH H). reflexivity.
Qed.

Lemma groupby_keys_Forall (Q : str -> Prop) ls :
  Forall Q ls -> Forall Q (groupby_keys ls).
Proof.
  induction 1 as [|l rest Hl Hrest IH]; [constructor|].
  destruct rest as [|l' rest]; [repeat constructor; exact Hl|].
  rewrite groupby_keys_cons2. case_bool_decide; [exact IH|].
  constructor; assumption.
Qed.

Lemma map_fixed {A} (f : A -> A) (l : list A) :
  Forall (fun x => f x = x) l -> map f l = l.
Proof. induction 1 as [|x l Hx _ IH]; simpl; congruence. Qed.

(** ** The lines of a normalised output *)

(** The list of lines [_cleanup_stdout] joins. *)
Lemma cleanup_lines s :
  exists ls,
    _cleanup_stdout s = join [LF] ls /\
    Forall no_linebreak ls /\
    Forall (fun l => rstrip is_space l = l) ls /\
    no_consecutive_duplicates ls = true.
Proof.
  eexists. split; [reflexivity|]. split; [|split].
  - apply groupby_keys_Forall. apply Forall_map, Forall_map.
    eapply Forall_impl; [apply splitlines_no_linebreak|].
    intros l Hl. cbn. apply rstrip_Forall, rstrip_Forall, Hl.
  - apply groupby_keys_Forall. apply Forall_map, Forall_forall.
    intros l _. cbn. apply rstrip_idempotent.
  - apply groupby_keys_no_duplicates.
Qed.

(** Lines that are already clean and carry no trailing spinner are left as
    they are, unless an empty last line is lost in the split. *)
Lemma cleanup_join_fixed ls :
  Forall no_linebreak ls ->
  Forall (fun l => rstrip is_space l = l) ls ->
  no_consecutive_duplicates ls = true ->
  ends_with_newline (join [LF] ls) = false ->
  no_trailing_spinner (splitlines (join [LF] ls)) = true ->
  _cleanup_stdout (join [LF] ls) = join [LF] ls.
Proof.
  intros Hlb Hws Hdup Hnl Hspin.
  assert (join [LF] ls = [] \/ drop_last_empty ls = ls) as [E | E].
  { unfold drop_last_empty. destruct (last ls) as [[|c t]|] eqn:El; auto.
    apply last_Some in El as [pre ->]. left.
    destruct pre as [|x pre]; [reflexivity|].
    unfold ends_with_newline, ends_with in Hnl.
    rewrite last_join_LF in Hnl by discriminate. discriminate. }
  - rewrite E. reflexivity.
  - unfold _cleanup_stdout. rewrite splitlines_join in * by assumption.
    rewrite E in *. f_equal.
    rewrite (map_fixed (rstrip is_spinner)).
    + rewrite (map_fixed (rstrip is_space)) by assumption.
      apply groupby_keys_fixed, Hdup.
    + unfold no_trailing_spinner in Hspin. rewrite forallb_forall in Hspin.
      apply Forall_forall. intros l Hl. apply rstrip_fixed.
      apply negb_true_iff, Hspin, list_elem_of_In, Hl.
Qed.

(** ** [split_on] against [splitlines] *)

Lemma split_on_splitlines s :
  only_LF_breaks s = true ->
  split_on LF s =
    splitlines s ++ (if ends_with_newline s || bool_decide (s = [])
                     then [[]] else []).
Proof.
  unfold ends_with_newline.
  induction s as [|c s IH]; [reflexivity|].
  unfold only_LF_breaks. cbn [forallb].
  intros [Hc Hs]%andb_true_iff. specialize (IH Hs).
  cbn [split_on]. rewrite ends_with_cons.
  destruct (c =? LF) eqn:Ec.
  - apply N.eqb_eq in Ec. subst c. rewrite splitlines_LF, IH.
    destruct s; reflexivity.
  - destruct (is_linebreak c) eqn:El; [discriminate|].
    cbn [splitlines]. rewrite El, IH.
    destruct s as [|d s]; [reflexivity|].
    destruct (splitlines (d :: s)) as [|x xs] eqn:E.
    + apply splitlines_nil_inv in E. discriminate.
    + reflexivity.
Qed.

(** ** The output normaliser *)

(** C2 (as amended): on the two progress frames of the source's comment
    the normaliser returns an empty first line, which comes from the
    leading carriage return, followed by the line "Removing snap abc";
    spinner characters, padding and the repeated frame are gone. *)
Theorem cleanup_stdout_progress_frames :
  _cleanup_stdout progress_frames = LF :: of_string "Removing snap abc".
Proof. reflexivity. Qed.

(** C2 as stated fails: the result is not the single line. *)
Lemma cleanup_stdout_progress_frames_not_single_line :
  splitlines progress_frames =
    [ []; of_string "Removing snap abc     /";
      of_string "Removing snap abc     -" ] /\
  _cleanup_stdout progress_frames <> of_string "Removing snap abc".
Proof. split; [reflexivity | discriminate]. Qed.

(** C1 as stated fails: a spinner character behind whitespace survives the
    first pass and is removed by the second. *)
Lemma cleanup_stdout_not_idempotent :
  let s := of_string "a- /" in
  _cleanup_stdout s = of_string "a-" /\
  _cleanup_stdout (_cleanup_stdout s) = of_string "a" /\
  _cleanup_stdout (_cleanup_stdout s) <> _cleanup_stdout s.
Proof. repeat split. discriminate. Qed.

(** A second way to lose idempotence: a last line that becomes empty is
    kept by the first pass and dropped by the second. *)
Example cleanup_stdout_drops_empty_last_line :
  let s := of_string "a" ++ [LF] ++ of_string "/" in
  _cleanup_stdout s = of_string "a" ++ [LF] /\
  _cleanup_stdout (_cleanup_stdout s) = of_string "a".
Proof. split; reflexivity. Qed.

(** C6 as stated fails: without carriage returns and duplicate lines a
    trailing spinner character is still removed, which is more than
    trimming whitespace. *)
Lemma cleanup_stdout_not_only_trimming :
  let s := of_string "a-" in
  no_carriage_return s = true /\
  no_consecutive_duplicates (splitlines s) = true /\
  _cleanup_stdout s = of_string "a" /\
  trim_trailing_whitespace s = of_string "a-" /\
  _cleanup_stdout s <> trim_trailing_whitespace s.
Proof. repeat split. discriminate. Qed.

(** Further inputs on which C6 as stated fails: lines that are equal only
    after trimming, a final line feed, and a boundary other than the line
    feed. *)
Example cleanup_stdout_merges_trimmed_lines :
  let s := of_string "a" ++ [LF] ++ of_string "a " in
  no_consecutive_duplicates (splitlines s) = true /\
  _cleanup_stdout s = of_string "a" /\
  trim_trailing_whitespace s = of_string "a" ++ [LF] ++ of_string "a".
Proof. repeat split. Qed.

Example cleanup_stdout_drops_final_line_feed :
  let s := of_string "a" ++ [LF] in
  _cleanup_stdout s = of_string "a" /\ trim_trailing_whitespace s = s.
Proof. repeat split. Qed.

Example cleanup_stdout_rewrites_form_feed :
  let s := of_string "a" ++ [12] ++ of_string "b" in
  no_carriage_return s = true /\
  _cleanup_stdout s = of_string "a" ++ [LF] ++ of_string "b" /\
  trim_trailing_whitespace s = s.
Proof. repeat split. Qed.

(** C6 (as amended): for an input whose only line boundaries are line
    feeds, that does not end in a line feed, none of whose lines ends in a
    spinner character and no two neighbouring lines of which are equal
    once trimmed, the normaliser returns the input with trailing
    whitespace trimmed from each line. *)
Theorem cleanup_stdout_only_trims s :
  only_LF_breaks s = true ->
  ends_with_newline s = false ->
  no_trailing_spinner (split_on LF s) = true ->
  no_consecutive_duplicates (map (rstrip is_space) (split_on LF s)) = true ->
  _cleanup_stdout s = trim_trailing_whitespace s.
Proof.
  intros Hlf Hnl Hspin Hdup.
  destruct s as [|c s]; [reflexivity|].
  pose proof (split_on_splitlines _ Hlf) as E.
  rewrite Hnl, bool_decide_eq_false_2, app_nil_r in E by discriminate.
  unfold trim_trailing_whitespace, _cleanup_stdout.
  rewrite E in *. f_equal.
  rewrite (map_fixed (rstrip is_spinner)).
  - apply groupby_keys_fixed, Hdup.
  - unfold no_trailing_spinner in Hspin. rewrite forallb_forall in Hspin.
    apply Forall_forall. intros l Hl. apply rstrip_fixed.
    apply negb_true_iff, Hspin, list_elem_of_In, Hl.
Qed.

Lemma cleanup_stdout_only_trims_witness :
  _cleanup_stdout (of_string "Removing snap abc   " ++ [LF] ++ of_string "abc removed")
  = trim_trailing_whitespace
      (of_string "Removing snap abc   " ++ [LF] ++ of_string "abc removed").
Proof. apply cleanup_stdout_only_trims; reflexivity. Defined.

(** An output without trailing spinner characters and without a final line
    feed is a fixed point of the normaliser. *)
Lemma cleanup_settled_fixed s :
  ends_with_newline (_cleanup_stdout s) = false ->
  no_trailing_spinner (splitlines (_cleanup_stdout s)) = true ->
  _cleanup_stdout (_cleanup_stdout s) = _cleanup_stdout s.
Proof.
  destruct (cleanup_lines s) as (ls & -> & Hlb & Hws & Hdup).
  intros Hnl Hspin. apply cleanup_join_fixed; assumption.
Qed.

(** ** Lengths: a second pass that changes anything shortens the text *)

Lemma join_cons_length (x : str) (ls : list str) :
  length (join [LF] (x :: ls)) =
    (length x + match ls with [] => 0 | _ :: _ => 1 + length (join [LF] ls) end)%nat.
Proof.
  destruct ls as [|y ls]; [simpl; lia|].
  change (join [LF] (x :: y :: ls)) with (x ++ LF :: join [LF] (y :: ls)).
  rewrite length_app. simpl. lia.
Qed.

Lemma rstrip_cons p c s :
  rstrip p (c :: s) =
    match rstrip p s with
    | [] => if p c then [] else [c]
    | d :: t => c :: d :: t
    end.
Proof. reflexivity. Qed.

Lemma rstrip_shorter p s :
  ends_with p s = true -> (length (rstrip p s) < length s)%nat.
Proof.
  induction s as [|c s IH]; [discriminate|].
  rewrite ends_with_cons. destruct s as [|d s].
  - simpl. intros ->. simpl. lia.
  - intros H. specialize (IH H). rewrite rstrip_cons.
    destruct (rstrip p (d :: s)); [destruct (p c)|]; simpl in *; lia.
Qed.

Lemma join_map_length (f : str -> str) ls :
  (forall x, (length (f x) <= length x)%nat) ->
  (length (join [LF] (map f ls)) <= length (join [LF] ls))%nat.
Proof.
  intros Hf. induction ls as [|x ls IH]; [simpl; lia|].
  cbn [map]. rewrite !join_cons_length. specialize (Hf x).
  destruct ls; simpl in *; lia.
Qed.

Lemma join_map_shorter (f : str -> str) ls :
  (forall x, (length (f x) <= length x)%nat) ->
  Exists (fun x => (length (f x) < length x)%nat) ls ->
  (length (join [LF] (map f ls)) < length (join [LF] ls))%nat.
Proof.
  intros Hf. induction 1 as [x ls Hx | x ls Hls IH].
  - cbn [map]. rewrite !join_cons_length.
    pose proof (join_map_length f ls Hf). destruct ls; simpl in *; lia.
  - cbn [map]. rewrite !join_cons_length. specialize (Hf x).
    destruct ls; simpl in *; lia.
Qed.

Lemma join_groupby_length ls :
  (length (join [LF] (groupby_keys ls)) <= length (join [LF] ls))%nat.
Proof.
  induction ls as [|l rest IH]; [simpl; lia|].
  destruct rest as [|l' rest]; [simpl; lia|].
  rewrite groupby_keys_cons2. rewrite (join_cons_length l (l' :: rest)).
  case_bool_decide.
  - lia.
  - destruct (groupby_keys_cons l' rest) as [t Ht].
    rewrite Ht in *. rewrite (join_cons_length l (l' :: t)). lia.
Qed.

Lemma cleanup_length s :
  (length (_cleanup_stdout s) <= length (join [LF] (splitlines s)))%nat.
Proof.
  unfold _cleanup_stdout.
  etransitivity; [apply join_groupby_length|].
  etransitivity; [apply join_map_length, rstrip_length|].
  apply join_map_length, rstrip_length.
Qed.

Lemma forallb_false_Exists {A} (f : A -> bool) (l : list A) :
  forallb f l = false -> Exists (fun x => f x = false) l.
Proof.
  induction l as [|x l IH]; [discriminate|]. simpl.
  destruct (f x) eqn:E; [|left; exact E].
  intros H. right. apply IH, H.
Qed.

Lemma cleanup_shorter s :
  no_trailing_spinner (splitlines s) = false ->
  (length (_cleanup_stdout s) < length (join [LF] (splitlines s)))%nat.
Proof.
  intros H. unfold _cleanup_stdout.
  eapply Nat.le_lt_trans; [apply join_groupby_length|].
  eapply Nat.le_lt_trans; [apply join_map_length, rstrip_length|].
  apply join_map_shorter; [apply rstrip_length|].
  apply forallb_false_Exists in H.
  eapply Exists_impl; [exact H|].
  intros l Hl. apply rstrip_shorter, negb_false_iff, Hl.
Qed.

Lemma last_app_cons {A} (x : list A) d y :
  last (x ++ d :: y) = last (d :: y).
Proof.
  rewrite last_app. destruct (last (d :: y)) eqn:E; [reflexivity|].
  apply last_None in E. discriminate.
Qed.

Lemma last_join_line pre (c : char) t :
  last (join [LF] (pre ++ [c :: t])) = last (c :: t).
Proof.
  induction pre as [|x pre IH]; [reflexivity|].
  destruct pre as [|y pre].
  - change (join [LF] ([x] ++ [c :: t])) with (x ++ LF :: c :: t).
    rewrite last_app_cons. apply last_cons_cons.
  - change (join [LF] ((x :: y :: pre) ++ [c :: t]))
      with (x ++ LF :: join [LF] ((y :: pre) ++ [c :: t])).
    rewrite last_app_cons, last_cons, IH.
    destruct (last (c :: t)) eqn:E; [reflexivity|].
    apply last_None in E. discriminate.
Qed.

Lemma join_snoc_empty_length pre :
  pre <> [] ->
  length (join [LF] (pre ++ [[]])) = S (length (join [LF] pre)).
Proof.
  intros Hne. induction pre as [|x pre IH]; [congruence|].
  destruct pre as [|y pre].
  - simpl. rewrite length_app. simpl. lia.
  - change (join [LF] ((x :: y :: pre) ++ [[]]))
      with (x ++ LF :: join [LF] ((y :: pre) ++ [[]])).
    change (join [LF] (x :: y :: pre)) with (x ++ LF :: join [LF] (y :: pre)).
    rewrite !length_app. cbn [length]. rewrite IH by discriminate. lia.
Qed.

Lemma join_drop_last_empty_length ls :
  (length (join [LF] (drop_last_empty ls)) <= length (join [LF] ls))%nat.
Proof.
  unfold drop_last_empty. destruct (last ls) as [[|c t]|] eqn:E; try lia.
  apply last_Some in E as [pre ->]. rewrite removelast_last.
  destruct pre as [|x pre]; [simpl; lia|].
  rewrite join_snoc_empty_length by discriminate. lia.
Qed.

Lemma join_drop_last_empty_shorter ls :
  Forall no_linebreak ls ->
  ends_with_newline (join [LF] ls) = true ->
  (length (join [LF] (drop_last_empty ls)) < length (join [LF] ls))%nat.
Proof.
  intros Hlb Hnl. unfold drop_last_empty, ends_with_newline, ends_with in *.
  destruct (last ls) as [[|c t]|] eqn:E.
  - apply last_Some in E as [pre ->]. rewrite removelast_last.
    destruct pre as [|x pre]; [discriminate|].
    rewrite join_snoc_empty_length by discriminate. lia.
  - exfalso. apply last_Some in E as [pre ->].
    rewrite last_join_line in Hnl.
    apply Forall_app in Hlb as [_ Hl]. inversion Hl as [|? ? Hct _]; subst.
    destruct (last (c :: t)) as [d|] eqn:Ed; [|discriminate].
    apply N.eqb_eq in Hnl. subst d.
    apply last_Some in Ed as [pre' Ed]. rewrite Ed in Hct.
    apply Forall_app in Hct as [_ Hd]. inversion Hd; subst. discriminate.
  - apply last_None in E. subst ls. discriminate.
Qed.

(** Conversely, an output that the normaliser leaves alone has neither. *)
Lemma cleanup_fixed_settled s :
  _cleanup_stdout (_cleanup_stdout s) = _cleanup_stdout s ->
  ends_with_newline (_cleanup_stdout s) = false /\
  no_trailing_spinner (splitlines (_cleanup_stdout s)) = true.
Proof.
  destruct (cleanup_lines s) as (ls & -> & Hlb & Hws & Hdup).
  intros E. apply (f_equal length) in E.
  pose proof (cleanup_length (join [LF] ls)) as H1.
  pose proof (join_drop_last_empty_length ls) as H2.
  rewrite splitlines_join in * by assumption.
  split.
  - destruct (ends_with_newline (join [LF] ls)) eqn:Hnl; [|reflexivity].
    pose proof (join_drop_last_empty_shorter ls Hlb Hnl). lia.
  - destruct (no_trailing_spinner (drop_last_empty ls)) eqn:Hsp;
      [reflexivity|].
    pose proof (cleanup_shorter (join [LF] ls)) as H3.
    rewrite splitlines_join in H3 by assumption.
    specialize (H3 Hsp). lia.
Qed.

(** C1 (as amended): normalising the normaliser's output yields that same
    output exactly when the output has no line that ends in a spinner
    character and does not end in a line feed. *)
Theorem cleanup_stdout_idempotent_iff_settled s :
  _cleanup_stdout (_cleanup_stdout s) = _cleanup_stdout s <->
  ends_with_newline (_cleanup_stdout s) = false /\
  no_trailing_spinner (splitlines (_cleanup_stdout s)) = true.
Proof.
  split.
  - apply cleanup_fixed_settled.
  - intros [Hnl Hspin]. apply cleanup_settled_fixed; assumption.
Qed.

Lemma cleanup_stdout_idempotent_witness :
  _cleanup_stdout (_cleanup_stdout progress_frames)
  = _cleanup_stdout progress_frames.
Proof.
  apply (proj2 (cleanup_stdout_idempotent_iff_settled progress_frames)).
  split; reflexivity.
Defined.

(** ** The presence prober and the state functions *)

Section SaltProperties.

Context {Host : Type}.
Variable pkg_info_installed : str -> bool -> Host -> outcome pyval * Host.
Variable cmd_run_all : str -> Host -> outcome cmd_output * Host.
Variable cmd_retcode : str -> bool -> Host -> outcome Z * Host.
Variable opts_test : bool.

Abbreviation probe_event := (PkgInfoInstalled (of_string "snapd") false).
Abbreviation snapd_is_installed := (_snapd_is_installed pkg_info_installed).
Abbreviation purged_on :=
  (purged pkg_info_installed cmd_run_all cmd_retcode opts_test).
Abbreviation assert_all_removed_on :=
  (assert_all_removed pkg_info_installed cmd_run_all).

Ltac unfold_salt :=
  cbv beta zeta delta [purged assert_all_removed bind_M unit_M _snapd_is_installed
                  salt_pkg_info_installed salt_cmd_run_all salt_cmd_retcode].

Ltac simp_salt := cbn [negb host trace].
Ltac step_with H := rewrite H; simp_salt.

(** C5 (as amended): the prober calls the package query once, for snapd
    and with [failhard=False], and hands back what the query gives,
    unchanged: the value is not turned into a boolean and an exception of
    the query is not caught. Both state functions use the value only
    through its truthiness: with a query that gives another value of the
    same truthiness they return the same outcome and make the same
    calls. *)
Theorem snapd_is_installed_passes_through (w : World Host) :
  snapd_is_installed w =
    (fst (pkg_info_installed (of_string "snapd") false (host w)),
     {| host := snd (pkg_info_installed (of_string "snapd") false (host w));
        trace := trace w ++ [probe_event] |})
  /\
  (forall (pkg' : str -> bool -> Host -> outcome pyval * Host) v v' h1,
     pkg_info_installed (of_string "snapd") false (host w) = (Ret v, h1) ->
     pkg' (of_string "snapd") false (host w) = (Ret v', h1) ->
     truthy v = truthy v' ->
     forall name,
       purged_on name w =
         purged pkg' cmd_run_all cmd_retcode opts_test name w /\
       assert_all_removed_on name w =
         assert_all_removed pkg' cmd_run_all name w).
Proof.
  split.
  - unfold _snapd_is_installed, salt_pkg_info_installed.
    destruct (pkg_info_installed (of_string "snapd") false (host w));
      reflexivity.
  - intros pkg' v v' h1 Hprobe Hprobe' Hv name.
    split; unfold_salt; rewrite Hprobe, Hprobe'; simp_salt; rewrite Hv;
      reflexivity.
Qed.

(** C7: with the probe reporting snapd absent, both state functions
    return [result=True] and empty [changes], and the probe is the only
    call made. *)
Theorem absent_subsystem_is_success name (w : World Host) v h1 :
  pkg_info_installed (of_string "snapd") false (host w) = (Ret v, h1) ->
  truthy v = false ->
  purged_on name w =
    (Ret {| name := name; result := Some true; changes := ∅;
            comment := of_string "Cannot purge snap " ++ quoted name
                       ++ of_string " because snapd is not installed." |},
     {| host := h1; trace := trace w ++ [probe_event] |})
  /\
  assert_all_removed_on name w =
    (Ret {| name := name; result := Some true; changes := ∅;
            comment := of_string "Cannot check for installed snaps because snapd is not installed. Assuming that all snaps are removed." |},
     {| host := h1; trace := trace w ++ [probe_event] |}).
Proof.
  intros Hprobe Hv. split; unfold_salt; step_with Hprobe; rewrite Hv;
    reflexivity.
Qed.

(** C3: once the removal command has run and its stderr is the
    not-installed message for the name, [purged] returns [result=True]
    with empty [changes], whatever the exit status; no further call is
    made. *)
Theorem purged_already_removed name (w : World Host) v h1 out h2 :
  pkg_info_installed (of_string "snapd") false (host w) = (Ret v, h1) ->
  truthy v = true ->
  opts_test = false ->
  cmd_run_all (of_string "snap remove --purge " ++ name) h1 = (Ret out, h2) ->
  stderr out = not_installed_msg name ->
  purged_on name w =
    (Ret {| name := name; result := Some true; changes := ∅;
            comment := of_string "Snap " ++ quoted name
                       ++ of_string " is already removed." |},
     {| host := h2;
        trace := trace w ++ [probe_event;
                             CmdRunAll (of_string "snap remove --purge "
                                        ++ name)] |}).
Proof.
  intros Hprobe Hv Htest Hrun Herr.
  unfold_salt. step_with Hprobe. rewrite Hv, Htest. simp_salt.
  step_with Hrun. rewrite bool_decide_eq_true_2 by exact Herr.
  rewrite <- app_assoc. reflexivity.
Qed.

(** C4: with snapd present, test mode off, the removal command exiting
    with status zero and a stderr other than the not-installed message, and
    [snap list <name>] exiting with a non-zero status, [purged] returns
    [result=True] and the four-entry [changes]. *)
Theorem purged_success name (w : World Host) v h1 out h2 rc h3 :
  pkg_info_installed (of_string "snapd") false (host w) = (Ret v, h1) ->
  truthy v = true ->
  opts_test = false ->
  cmd_run_all (of_string "snap remove --purge " ++ name) h1 = (Ret out, h2) ->
  stderr out <> not_installed_msg name ->
  retcode out = 0%Z ->
  cmd_retcode (of_string "snap list " ++ name) true h2 = (Ret rc, h3) ->
  rc <> 0%Z ->
  purged_on name w =
    (Ret {| name := name; result := Some true;
            changes := <["old" := of_string "installed"]>
                         (<["new" := of_string "removed"]>
                            (<["stdout" := _cleanup_stdout (stdout out)]>
                               (<["stderr" := stderr out]> ∅)));
            comment := of_string "Snap " ++ quoted name
                       ++ of_string " was successfully purged." |},
     {| host := h3;
        trace := trace w ++ [probe_event;
                             CmdRunAll (of_string "snap remove --purge "
                                        ++ name);
                             CmdRetcode (of_string "snap list " ++ name)
                               true] |}).
Proof.
  intros Hprobe Hv Htest Hrun Herr Hret Hlist Hrc.
  unfold_salt. step_with Hprobe. rewrite Hv, Htest. simp_salt.
  step_with Hrun. rewrite bool_decide_eq_false_2 by exact Herr.
  rewrite Hret. cbn [Z.eqb]. simp_salt. step_with Hlist.
  apply Z.eqb_neq in Hrc. rewrite Hrc.
  rewrite <- !app_assoc. reflexivity.
Qed.

Ltac case_salt :=
  repeat match goal with
    | |- context [pkg_info_installed ?a ?b ?h] =>
        destruct (pkg_info_installed a b h) as [[?|?] ?]; simp_salt
    | |- context [cmd_run_all ?a ?h] =>
        destruct (cmd_run_all a h) as [[?|?] ?]; simp_salt
    | |- context [cmd_retcode ?a ?b ?h] =>
        destruct (cmd_retcode a b h) as [[?|?] ?]; simp_salt
    | |- context [if ?c then _ else _] => destruct c eqn:?; simp_salt
    end.

(** C8: whatever the collaborators answer, a record returned by either
    state function carries a non-empty comment. *)
Theorem comment_never_empty name (w : World Host) r w' :
  purged_on name w = (Ret r, w') \/
  assert_all_removed_on name w = (Ret r, w') ->
  comment r <> [].
Proof.
  intros [H | H]; revert H; unfold_salt; case_salt;
    intros [= <- <-] || discriminate;
    cbn [comment set_comment set_result set_changes]; simpl; discriminate.
Qed.

(** C9: [assert_all_removed] returns empty [changes] in every branch, for
    every answer of the probe and of the list query, and the only calls it
    makes are the probe and [snap list]. *)
Theorem assert_all_removed_read_only name (w : World Host) :
  match assert_all_removed_on name w with
  | (o, w') =>
      match o with
      | Ret r => changes r = ∅
      | Raise _ => True
      end /\
      (trace w' = trace w ++ [probe_event] \/
       trace w' = trace w ++ [probe_event; CmdRunAll (of_string "snap list")])
  end.
Proof.
  unfold_salt; case_salt; (split; [exact I || reflexivity|]);
    cbn [trace]; rewrite <- ?app_assoc; auto.
Qed.

(** C10: with snapd present, [purged] returns [result=None] when the test
    flag is set, and a record returned with the flag unset has the result
    [True] or [False]. *)
Theorem purged_none_iff_test name (w : World Host) v h1 :
  pkg_info_installed (of_string "snapd") false (host w) = (Ret v, h1) ->
  truthy v = true ->
  (opts_test = true ->
   purged_on name w =
     (Ret {| name := name; result := None; changes := ∅;
             comment := of_string "Test mode is not supported." |},
      {| host := h1; trace := trace w ++ [probe_event] |})) /\
  (forall r w', purged_on name w = (Ret r, w') ->
     (result r = None <-> opts_test = true) /\
     (opts_test = false -> result r = Some true \/ result r = Some false)).
Proof.
  intros Hprobe Hv. split.
  - intros Htest. unfold_salt. step_with Hprobe. rewrite Hv, Htest.
    reflexivity.
  - intros r w'. unfold_salt. step_with Hprobe. rewrite Hv. simp_salt.
    case_salt; intros [= <- <-] || discriminate;
      cbn [result set_comment set_result set_changes];
      (split; [split; congruence | intros; first [congruence | auto]]).
Qed.

(** Neither state function fails on its own: when no collaborator raises,
    a record is returned. *)
Lemma state_functions_return name (w : World Host) :
  (forall p f h, exists v h', pkg_info_installed p f h = (Ret v, h')) ->
  (forall c h, exists out h', cmd_run_all c h = (Ret out, h')) ->
  (forall c i h, exists rc h', cmd_retcode c i h = (Ret rc, h')) ->
  (exists r w', purged_on name w = (Ret r, w')) /\
  (exists r w', assert_all_removed_on name w = (Ret r, w')).
Proof.
  intros Hpkg Hrun Hrc. split; unfold_salt.
  - destruct (Hpkg (of_string "snapd") false (host w)) as (v & h1 & E1).
    step_with E1. destruct (negb (truthy v)); [eauto|].
    destruct opts_test; [eauto|]. simp_salt.
    destruct (Hrun (of_string "snap remove --purge " ++ name) h1)
      as (out & h2 & E2).
    step_with E2. destruct (bool_decide _); [eauto|].
    destruct (negb _); [eauto|]. simp_salt.
    destruct (Hrc (of_string "snap list " ++ name) true h2)
      as (rc & h3 & E3).
    step_with E3. destruct (rc =? 0)%Z; eauto.
  - destruct (Hpkg (of_string "snapd") false (host w)) as (v & h1 & E1).
    step_with E1. destruct (negb (truthy v)); [eauto|]. simp_salt.
    destruct (Hrun (of_string "snap list") h1) as (out & h2 & E2).
    step_with E2. destruct (negb _); [eauto|].
    destruct (startswith _ _); eauto.
Qed.

End SaltProperties.

(** ** The statements on sample machines *)

(** C5 as stated fails: for a missing package the query gives the empty
    mapping, and the prober returns that mapping, which is falsy but is not
    the boolean [False]. *)
Lemma snapd_is_installed_not_boolean :
  _snapd_is_installed pkg_absent sample_world =
    (Ret (PyDict []),
     {| host := tt;
        trace := [PkgInfoInstalled (of_string "snapd") false] |}) /\
  truthy (PyDict []) = false /\
  (forall b, PyDict [] <> PyBool b).
Proof. repeat split. discriminate. Qed.

(** The mapping of the packages found and the boolean [True] are both
    truthy: the state functions do not tell them apart. *)
Lemma snapd_is_installed_witness :
  _snapd_is_installed pkg_present sample_world =
    (Ret (PyDict [(of_string "snapd", PyDict [])]),
     {| host := tt;
        trace := [] ++ [PkgInfoInstalled (of_string "snapd") false] |})
  /\
  purged pkg_present run_removed retcode_absent false (of_string "abc")
    sample_world =
  purged pkg_true run_removed retcode_absent false (of_string "abc")
    sample_world
  /\
  assert_all_removed pkg_present run_removed (of_string "abc") sample_world =
  assert_all_removed pkg_true run_removed (of_string "abc") sample_world.
Proof.
  split.
  - apply (snapd_is_installed_passes_through pkg_present run_removed
             retcode_absent false sample_world).
  - apply (proj2 (snapd_is_installed_passes_through pkg_present run_removed
                    retcode_absent false sample_world)
             pkg_true (PyDict [(of_string "snapd", PyDict [])])
             (PyBool true) tt eq_refl eq_refl eq_refl (of_string "abc")).
Defined.

Lemma absent_subsystem_witness :
  purged pkg_absent run_removed retcode_absent false (of_string "abc")
    sample_world =
    (Ret {| name := of_string "abc"; result := Some true; changes := ∅;
            comment := of_string "Cannot purge snap "
                       ++ quoted (of_string "abc")
                       ++ of_string " because snapd is not installed." |},
     {| host := tt;
        trace := [] ++ [PkgInfoInstalled (of_string "snapd") false] |})
  /\
  assert_all_removed pkg_absent run_removed assert_all_removed_default_name
    sample_world =
    (Ret {| name := assert_all_removed_default_name; result := Some true;
            changes := ∅;
            comment := of_string "Cannot check for installed snaps because snapd is not installed. Assuming that all snaps are removed." |},
     {| host := tt;
        trace := [] ++ [PkgInfoInstalled (of_string "snapd") false] |}).
Proof.
  split.
  - apply (absent_subsystem_is_success pkg_absent run_removed retcode_absent
             false (of_string "abc") sample_world (PyDict []) tt);
      reflexivity.
  - apply (absent_subsystem_is_success pkg_absent run_removed retcode_absent
             false assert_all_removed_default_name sample_world
             (PyDict []) tt);
      reflexivity.
Defined.

(** The removal command exits with status 1 here. *)
Lemma purged_already_removed_witness :
  run_not_installed (of_string "snap remove --purge " ++ of_string "abc") tt =
    (Ret (mk_cmd_output 4711 1 [] (not_installed_msg (of_string "abc"))), tt)
  /\
  purged pkg_present run_not_installed retcode_absent false (of_string "abc")
    sample_world =
    (Ret {| name := of_string "abc"; result := Some true; changes := ∅;
            comment := of_string "Snap " ++ quoted (of_string "abc")
                       ++ of_string " is already removed." |},
     {| host := tt;
        trace := [] ++ [PkgInfoInstalled (of_string "snapd") false;
                        CmdRunAll (of_string "snap remove --purge "
                                   ++ of_string "abc")] |}).
Proof.
  split; [reflexivity|].
  apply (purged_already_removed pkg_present run_not_installed
           retcode_absent false (of_string "abc") sample_world
           (PyDict [(of_string "snapd", PyDict [])]) tt
           (mk_cmd_output 4711 1 [] (not_installed_msg (of_string "abc")))
           tt);
    reflexivity.
Defined.

Lemma purged_success_witness :
  purged pkg_present run_removed retcode_absent false (of_string "abc")
    sample_world =
    (Ret {| name := of_string "abc"; result := Some true;
            changes := <["old" := of_string "installed"]>
                         (<["new" := of_string "removed"]>
                            (<["stdout" := _cleanup_stdout progress_frames]>
                               (<["stderr" := []]> ∅)));
            comment := of_string "Snap " ++ quoted (of_string "abc")
                       ++ of_string " was successfully purged." |},
     {| host := tt;
        trace := [] ++ [PkgInfoInstalled (of_string "snapd") false;
                        CmdRunAll (of_string "snap remove --purge "
                                   ++ of_string "abc");
                        CmdRetcode (of_string "snap list "
                                    ++ of_string "abc") true] |}).
Proof.
  apply (purged_success pkg_present run_removed retcode_absent false
           (of_string "abc") sample_world
           (PyDict [(of_string "snapd", PyDict [])]) tt
           (mk_cmd_output 4711 0 progress_frames []) tt 1%Z tt);
    try reflexivity; discriminate.
Defined.

Lemma comment_never_empty_witness :
  purged pkg_present run_not_installed retcode_absent false
    (of_string "abc") sample_world =
    (Ret {| name := of_string "abc"; result := Some true; changes := ∅;
            comment := of_string "Snap " ++ quoted (of_string "abc")
                       ++ of_string " is already removed." |},
     {| host := tt;
        trace := [PkgInfoInstalled (of_string "snapd") false;
                  CmdRunAll (of_string "snap remove --purge "
                             ++ of_string "abc")] |}) /\
  comment {| name := of_string "abc"; result := Some true; changes := ∅;
             comment := of_string "Snap " ++ quoted (of_string "abc")
                        ++ of_string " is already removed." |} <> [].
Proof.
  split; [reflexivity|].
  apply (comment_never_empty pkg_present run_not_installed retcode_absent
           false (of_string "abc") sample_world _
           {| host := tt;
              trace := [PkgInfoInstalled (of_string "snapd") false;
                        CmdRunAll (of_string "snap remove --purge "
                                   ++ of_string "abc")] |}).
  left. reflexivity.
Defined.

Lemma purged_none_iff_test_witness :
  purged pkg_present run_removed retcode_absent true (of_string "abc")
    sample_world =
    (Ret {| name := of_string "abc"; result := None; changes := ∅;
            comment := of_string "Test mode is not supported." |},
     {| host := tt;
        trace := [] ++ [PkgInfoInstalled (of_string "snapd") false] |}) /\
  (forall r w',
     purged pkg_present run_removed retcode_absent false (of_string "abc")
       sample_world = (Ret r, w') ->
     result r = Some true \/ result r = Some false).
Proof.
  split.
  - apply (purged_none_iff_test pkg_present run_removed retcode_absent true
             (of_string "abc") sample_world
             (PyDict [(of_string "snapd", PyDict [])]) tt eq_refl eq_refl).
    reflexivity.
  - intros r w' H.
    apply (purged_none_iff_test pkg_present run_removed retcode_absent false
             (of_string "abc") sample_world
             (PyDict [(of_string "snapd", PyDict [])]) tt eq_refl eq_refl)
      in H.
    apply H. reflexivity.
Defined.

(** Further runs: distant duplicates survive the normaliser, a snap that is
    still listed after the removal makes [purged] fail, and
    [assert_all_removed] on a machine without and with snaps. *)
Example cleanup_stdout_keeps_distant_duplicates :
  _cleanup_stdout (of_string "a" ++ [LF] ++ of_string "a" ++ [LF]
                   ++ of_string "b" ++ [LF] ++ of_string "a")
  = of_string "a" ++ [LF] ++ of_string "b" ++ [LF] ++ of_string "a".
Proof. reflexivity. Qed.

Example cleanup_stdout_empty : _cleanup_stdout [] = [].
Proof. reflexivity. Qed.

Example purged_still_installed :
  fst (purged pkg_present run_removed retcode_present false (of_string "abc")
         sample_world) =
    Ret {| name := of_string "abc"; result := Some false;
           changes := <["stdout" := LF :: of_string "Removing snap abc"]>
                        (<["stderr" := []]> ∅);
           comment := of_string "Purging snap " ++ quoted (of_string "abc")
                      ++ of_string " was unsuccessful." |}.
Proof. reflexivity. Qed.

Example assert_all_removed_none_installed :
  fst (assert_all_removed pkg_present run_list_empty
         assert_all_removed_default_name sample_world) =
    Ret {| name := assert_all_removed_default_name; result := Some true;
           changes := ∅; comment := of_string "No snaps are installed." |}.
Proof. reflexivity. Qed.

Example assert_all_removed_snap_left :
  fst (assert_all_removed pkg_present run_list_core
         assert_all_removed_default_name sample_world) =
    Ret {| name := assert_all_removed_default_name; result := Some false;
           changes := ∅;
           comment :=
             of_string "It seems like at least one snap is still installed."
             ++ [LF] ++ of_string "Output:"
             ++ [LF] ++ of_string "core22 20240111 1122 latest/stable"
             ++ [LF] ++ of_string "Errors:"
             ++ [LF] ++ of_string "(no errors)" |}.
Proof. reflexivity. Qed.

(** * Further properties of the output normaliser *)

Lemma cleanup_stdout_lines s : _cleanup_stdout s = join [LF] (stdout_lines s).
Proof. reflexivity. Qed.

Lemma stdout_lines_no_linebreak s : Forall no_linebreak (stdout_lines s).
Proof.
  apply groupby_keys_Forall. apply Forall_map, Forall_map.
  eapply Forall_impl; [apply splitlines_no_linebreak|].
  intros l Hl. cbn. apply rstrip_Forall, rstrip_Forall, Hl.
Qed.

Lemma stdout_lines_trimmed s :
  Forall (fun l => ends_with is_space l = false) (stdout_lines s).
Proof.
  apply groupby_keys_Forall. apply Forall_map, Forall_forall.
  intros l _. cbn. apply rstrip_ends_with.
Qed.

Lemma only_LF_breaks_app s t :
  only_LF_breaks (s ++ t) = only_LF_breaks s && only_LF_breaks t.
Proof. apply forallb_app. Qed.

Lemma no_linebreak_only_LF l : no_linebreak l -> only_LF_breaks l = true.
Proof.
  induction 1 as [|c l Hc _ IH]; [reflexivity|].
  unfold only_LF_breaks in *. cbn [forallb]. rewrite Hc, IH. reflexivity.
Qed.

Lemma join_only_LF ls :
  Forall no_linebreak ls -> only_LF_breaks (join [LF] ls) = true.
Proof.
  induction 1 as [|l rest Hl _ IH]; [reflexivity|].
  destruct rest as [|l' rest].
  - apply no_linebreak_only_LF, Hl.
  - change (join [LF] (l :: l' :: rest))
      with (l ++ LF :: join [LF] (l' :: rest)).
    rewrite only_LF_breaks_app, (no_linebreak_only_LF l Hl).
    change (LF :: join [LF] (l' :: rest))
      with ([LF] ++ join [LF] (l' :: rest)).
    rewrite only_LF_breaks_app, IH. reflexivity.
Qed.

Lemma only_LF_no_carriage_return s :
  only_LF_breaks s = true -> no_carriage_return s = true.
Proof.
  unfold only_LF_breaks, no_carriage_return. rewrite !forallb_forall.
  intros H c Hc. specialize (H c Hc).
  destruct (c =? CR) eqn:E; [|reflexivity].
  apply N.eqb_eq in E. subst c. discriminate.
Qed.

Lemma cleanup_only_LF s : only_LF_breaks (_cleanup_stdout s) = true.
Proof. apply join_only_LF, stdout_lines_no_linebreak. Qed.

(** X1: the normalised output holds no carriage return, and no line
    boundary of any kind other than the line feeds put in by the join. *)
Theorem cleanup_stdout_line_feeds_only s :
  only_LF_breaks (_cleanup_stdout s) = true /\
  no_carriage_return (_cleanup_stdout s) = true.
Proof.
  split; [|apply only_LF_no_carriage_return]; apply cleanup_only_LF.
Qed.

(** [split_on] undoes [join] on lines without boundaries. *)
Lemma split_on_line l : no_linebreak l -> split_on LF l = [l].
Proof.
  induction 1 as [|c l Hc _ IH]; [reflexivity|].
  cbn [split_on]. destruct (c =? LF) eqn:E.
  - apply N.eqb_eq in E. subst c. discriminate.
  - rewrite IH. reflexivity.
Qed.

Lemma split_on_line_app l t :
  no_linebreak l -> split_on LF (l ++ LF :: t) = l :: split_on LF t.
Proof.
  induction 1 as [|c l Hc _ IH]; [reflexivity|].
  change ((c :: l) ++ LF :: t) with (c :: (l ++ LF :: t)).
  cbn [split_on]. destruct (c =? LF) eqn:E.
  - apply N.eqb_eq in E. subst c. discriminate.
  - rewrite IH. reflexivity.
Qed.

Lemma split_on_join ls :
  Forall no_linebreak ls ->
  split_on LF (join [LF] ls) = match ls with [] => [[]] | _ :: _ => ls end.
Proof.
  induction 1 as [|l rest Hl _ IH]; [reflexivity|].
  destruct rest as [|l' rest].
  - apply split_on_line, Hl.
  - change (join [LF] (l :: l' :: rest))
      with (l ++ LF :: join [LF] (l' :: rest)).
    rewrite split_on_line_app by exact Hl. rewrite IH. reflexivity.
Qed.

Lemma cleanup_split_on s :
  split_on LF (_cleanup_stdout s) =
    match stdout_lines s with [] => [[]] | _ :: _ => stdout_lines s end.
Proof.
  rewrite cleanup_stdout_lines.
  apply split_on_join, stdout_lines_no_linebreak.
Qed.

(** X2: no line of the normalised output ends in whitespace. *)
Theorem cleanup_stdout_lines_trimmed s :
  Forall (fun l => ends_with is_space l = false)
    (split_on LF (_cleanup_stdout s)).
Proof.
  rewrite cleanup_split_on.
  pose proof (stdout_lines_trimmed s) as H.
  destruct (stdout_lines s); [repeat constructor | exact H].
Qed.

(** X3: no two neighbouring lines of the normalised output are equal. *)
Theorem cleanup_stdout_no_consecutive_duplicates s :
  no_consecutive_duplicates (split_on LF (_cleanup_stdout s)) = true.
Proof.
  rewrite cleanup_split_on.
  pose proof (groupby_keys_no_duplicates
    (map (rstrip is_space) (map (rstrip is_spinner) (splitlines s)))) as H.
  fold (stdout_lines s) in H.
  destruct (stdout_lines s); [reflexivity | exact H].
Qed.

Lemma join_splitlines_length s :
  (length (join [LF] (splitlines s)) <= length s)%nat.
Proof.
  induction s as [| a | a b l IH1 IH2] using str_ind2.
  - simpl. lia.
  - simpl. destruct (is_linebreak a); simpl; lia.
  - rewrite splitlines_cons2. destruct (is_linebreak a).
    + rewrite join_cons_length.
      destruct ((a =? CR) && (b =? LF));
        [destruct (splitlines l) | destruct (splitlines (b :: l))];
        simpl in *; lia.
    + destruct (splitlines (b :: l)) as [|x xs]; [simpl; lia|].
      rewrite join_cons_length in *. simpl in *. lia.
Qed.

Lemma cleanup_length_input s :
  (length (_cleanup_stdout s) <= length s)%nat.
Proof.
  etransitivity; [apply cleanup_length | apply join_splitlines_length].
Qed.

(** X4: the normaliser never makes the text longer. *)
Theorem cleanup_stdout_never_longer s :
  (length (_cleanup_stdout s) <= length s)%nat.
Proof. apply cleanup_length_input. Qed.

(** A second pass either changes nothing or shortens the text. *)
Lemma cleanup_second_pass s :
  _cleanup_stdout (_cleanup_stdout s) = _cleanup_stdout s \/
  (length (_cleanup_stdout (_cleanup_stdout s))
   < length (_cleanup_stdout s))%nat.
Proof.
  destruct (ends_with_newline (_cleanup_stdout s)) eqn:Hnl.
  - right. rewrite (cleanup_stdout_lines s) in *.
    pose proof (stdout_lines_no_linebreak s) as Hlb.
    pose proof (cleanup_length (join [LF] (stdout_lines s))) as H1.
    rewrite splitlines_join in H1 by exact Hlb.
    pose proof (join_drop_last_empty_shorter _ Hlb Hnl). lia.
  - destruct (no_trailing_spinner (splitlines (_cleanup_stdout s))) eqn:Hsp.
    + left. apply cleanup_settled_fixed; assumption.
    + right. pose proof (cleanup_shorter _ Hsp) as H1.
      rewrite (cleanup_stdout_lines s) in *.
      pose proof (stdout_lines_no_linebreak s) as Hlb.
      rewrite splitlines_join in H1 by exact Hlb.
      pose proof (join_drop_last_empty_length (stdout_lines s)). lia.
Qed.

Lemma cleanup_iter_progress s n :
  _cleanup_stdout (Nat.iter (S n) _cleanup_stdout s)
    = Nat.iter (S n) _cleanup_stdout s \/
  (length (Nat.iter (S n) _cleanup_stdout s) + n <= length s)%nat.
Proof.
  induction n as [|n IH].
  - right. simpl. pose proof (cleanup_length_input s). lia.
  - destruct IH as [IH | IH].
    + left. change (Nat.iter (S (S n)) _cleanup_stdout s)
        with (_cleanup_stdout (Nat.iter (S n) _cleanup_stdout s)).
      rewrite IH. exact IH.
    + change (Nat.iter (S (S n)) _cleanup_stdout s)
        with (_cleanup_stdout (Nat.iter (S n) _cleanup_stdout s)).
      change (Nat.iter (S n) _cleanup_stdout s)
        with (_cleanup_stdout (Nat.iter n _cleanup_stdout s)) in *.
      destruct (cleanup_second_pass (Nat.iter n _cleanup_stdout s))
        as [E | E].
      * left. rewrite E. exact E.
      * right. lia.
Qed.

Lemma cleanup_settles_within s :
  _cleanup_stdout (Nat.iter (S (length s)) _cleanup_stdout s)
  = Nat.iter (S (length s)) _cleanup_stdout s.
Proof.
  destruct (cleanup_iter_progress s (length s)) as [E | E]; [exact E|].
  assert (Nat.iter (S (length s)) _cleanup_stdout s = []) as ->.
  { apply length_zero_iff_nil. lia. }
  reflexivity.
Qed.

(** Each pass takes one leftover frame from [redraw_residue]. *)
Lemma rstrip_snoc_strip p x c :
  p c = true -> rstrip p (x ++ [c]) = rstrip p x.
Proof.
  intros Hc. induction x as [|d x IH].
  - simpl. rewrite Hc. reflexivity.
  - change ((d :: x) ++ [c]) with (d :: (x ++ [c])).
    rewrite !rstrip_cons, IH. reflexivity.
Qed.

Lemma rstrip_snoc_keep p x c :
  p c = false -> rstrip p (x ++ [c]) = x ++ [c].
Proof.
  intros Hc. apply rstrip_fixed. unfold ends_with.
  rewrite last_snoc. exact Hc.
Qed.

Lemma splitlines_line l : no_linebreak l -> l <> [] -> splitlines l = [l].
Proof.
  intros Hl Hne. rewrite <- (app_nil_r l) at 1.
  rewrite splitlines_app by exact Hl. destruct l; [congruence|reflexivity].
Qed.

Lemma redraw_residue_line k :
  no_linebreak (redraw_residue k) /\ redraw_residue k <> [] /\
  ends_with is_space (redraw_residue k) = false.
Proof.
  induction k as [|k (Hlb & Hne & Hsp)].
  - repeat split; [repeat constructor | discriminate].
  - cbn [redraw_residue]. split; [|split].
    + apply Forall_app. split; [exact Hlb | repeat constructor].
    + destruct (redraw_residue k); discriminate.
    + change (of_string " -") with ([32] ++ [45]).
      rewrite app_assoc. unfold ends_with. rewrite last_snoc. reflexivity.
Qed.

Lemma cleanup_redraw_residue k :
  _cleanup_stdout (redraw_residue (S k)) = redraw_residue k.
Proof.
  destruct (redraw_residue_line k) as (Hlb & Hne & Hsp).
  destruct (redraw_residue_line (S k)) as (Hlb' & Hne' & _).
  unfold _cleanup_stdout. rewrite splitlines_line by assumption.
  cbn [map groupby_keys join redraw_residue].
  change (of_string " -") with ([32] ++ [45]). rewrite app_assoc.
  rewrite rstrip_snoc_strip by reflexivity.
  rewrite rstrip_snoc_keep by reflexivity.
  rewrite rstrip_snoc_strip by reflexivity.
  apply rstrip_fixed, Hsp.
Qed.

Lemma cleanup_iter_redraw_residue n k :
  Nat.iter n _cleanup_stdout (redraw_residue (n + k)) = redraw_residue k.
Proof.
  revert k. induction n as [|n IH]; intros k; [reflexivity|].
  change (Nat.iter (S n) _cleanup_stdout (redraw_residue (S n + k)))
    with (_cleanup_stdout
            (Nat.iter n _cleanup_stdout (redraw_residue (S n + k)))).
  replace (S n + k)%nat with (n + S k)%nat by lia.
  rewrite IH. apply cleanup_redraw_residue.
Qed.

Lemma cleanup_needs_many_passes n :
  _cleanup_stdout
    (Nat.iter n _cleanup_stdout (redraw_residue (n + 1)))
  <> Nat.iter n _cleanup_stdout (redraw_residue (n + 1)).
Proof.
  rewrite cleanup_iter_redraw_residue.
  rewrite (cleanup_redraw_residue 0). discriminate.
Qed.

(** X5: repeated normalisation settles: after at most [length s + 1]
    passes the text is a fixed point of the normaliser. No fixed number of
    passes is enough for every input: for each [n] there is an input that
    [n] passes have not yet brought to a fixed point. *)
Theorem cleanup_stdout_settles :
  (forall s,
     _cleanup_stdout (Nat.iter (S (length s)) _cleanup_stdout s)
     = Nat.iter (S (length s)) _cleanup_stdout s) /\
  (forall n, exists s,
     _cleanup_stdout (Nat.iter n _cleanup_stdout s)
     <> Nat.iter n _cleanup_stdout s).
Proof.
  split.
  - apply cleanup_settles_within.
  - intros n. exists (redraw_residue (n + 1)).
    apply cleanup_needs_many_passes.
Qed.

(** Three passes on a short input. *)
Example cleanup_stdout_three_passes :
  let s := of_string "a- - /" in
  _cleanup_stdout s = of_string "a- -" /\
  _cleanup_stdout (_cleanup_stdout s) = of_string "a-" /\
  _cleanup_stdout (_cleanup_stdout (_cleanup_stdout s)) = of_string "a".
Proof. repeat split. Qed.

Lemma rstrip_suffix p s :
  exists k, s = rstrip p s ++ k /\ forallb p k = true.
Proof.
  induction s as [|c s (k & E & Hk)]; [exists []; split; reflexivity|].
  rewrite rstrip_cons. destruct (rstrip p s) as [|d t] eqn:Er.
  - simpl in E. subst k. destruct (p c) eqn:Ec.
    + exists (c :: s). simpl. rewrite Ec, Hk. split; reflexivity.
    + exists s. split; [reflexivity | exact Hk].
  - exists k. split; [|exact Hk]. simpl. f_equal. exact E.
Qed.

(** X6: every line of the result is a line of the input without a tail
    that consists of whitespace followed by spinner characters; nothing
    else is taken from a line and nothing is added to it. *)
Theorem cleanup_stdout_removes_tails_only s :
  _cleanup_stdout s = join [LF] (stdout_lines s) /\
  Forall (fun l => exists ws sp,
            In (l ++ ws ++ sp) (splitlines s) /\
            forallb is_space ws = true /\ forallb is_spinner sp = true)
    (stdout_lines s).
Proof.
  split; [reflexivity|].
  apply groupby_keys_Forall. rewrite map_map. apply Forall_map.
  apply Forall_forall. intros l0 Hl0. cbn.
  destruct (rstrip_suffix is_spinner l0) as (sp & Esp & Hsp).
  destruct (rstrip_suffix is_space (rstrip is_spinner l0)) as (ws & Ews & Hws).
  exists ws, sp. split; [|split; assumption].
  rewrite app_assoc, <- Ews, <- Esp. apply list_elem_of_In, Hl0.
Qed.

(** * Further properties of the state functions *)

Lemma startswith_prefix s p :
  startswith s p = true <-> exists t, s = p ++ t.
Proof.
  revert s. induction p as [|a p IH]; intros s.
  - destruct s; simpl; (split; [eexists; reflexivity | reflexivity]).
  - destruct s as [|c s]; simpl.
    + split; [discriminate | intros [t Ht]; discriminate].
    + rewrite andb_true_iff, N.eqb_eq, IH. split.
      * intros [-> [t ->]]. exists t. reflexivity.
      * intros [t [= -> ->]]. split; [reflexivity | exists t; reflexivity].
Qed.

Lemma not_installed_msg_inj name name' :
  not_installed_msg name = not_installed_msg name' -> name = name'.
Proof.
  unfold not_installed_msg, quoted. intros H.
  apply app_inv_head in H. apply app_inv_tail in H.
  apply app_inv_head in H. apply app_inv_tail in H. exact H.
Qed.

Section MoreSaltProperties.

Context {Host : Type}.
Variable pkg_info_installed : str -> bool -> Host -> outcome pyval * Host.
Variable cmd_run_all : str -> Host -> outcome cmd_output * Host.
Variable cmd_retcode : str -> bool -> Host -> outcome Z * Host.
Variable opts_test : bool.

Abbreviation probe_event := (PkgInfoInstalled (of_string "snapd") false).
Abbreviation purged_on :=
  (purged pkg_info_installed cmd_run_all cmd_retcode opts_test).
Abbreviation assert_all_removed_on :=
  (assert_all_removed pkg_info_installed cmd_run_all).

Ltac unfold_salt :=
  cbv beta zeta delta [purged assert_all_removed bind_M unit_M
                       _snapd_is_installed salt_pkg_info_installed
                       salt_cmd_run_all salt_cmd_retcode].
Ltac simp_salt := cbn [negb host trace].
Ltac step_with H := rewrite H; simp_salt.
Ltac case_salt :=
  repeat match goal with
    | |- context [pkg_info_installed ?a ?b ?h] =>
        destruct (pkg_info_installed a b h) as [[?|?] ?]; simp_salt
    | |- context [cmd_run_all ?a ?h] =>
        destruct (cmd_run_all a h) as [[?|?] ?]; simp_salt
    | |- context [cmd_retcode ?a ?b ?h] =>
        destruct (cmd_retcode a b h) as [[?|?] ?]; simp_salt
    | |- context [if ?c then _ else _] => destruct c eqn:?; simp_salt
    end.
Ltac simp_ret := cbn [name result changes comment
                      set_comment set_result set_changes].

Lemma purged_failed_run name (w : World Host) v h1 out h2 :
  pkg_info_installed (of_string "snapd") false (host w) = (Ret v, h1) ->
  truthy v = true ->
  opts_test = false ->
  cmd_run_all (of_string "snap remove --purge " ++ name) h1 = (Ret out, h2) ->
  stderr out <> not_installed_msg name ->
  retcode out <> 0%Z ->
  purged_on name w =
    (Ret {| name := name; result := Some false;
            changes := <["stdout" := _cleanup_stdout (stdout out)]>
                         (<["stderr" := stderr out]> ∅);
            comment := of_string "Non-zero return code when purging snap "
                       ++ quoted name ++ of_string "." |},
     {| host := h2;
        trace := trace w ++ [probe_event;
                             CmdRunAll (of_string "snap remove --purge "
                                        ++ name)] |}).
Proof.
  intros Hprobe Hv Htest Hrun Herr Hret.
  unfold_salt. step_with Hprobe. rewrite Hv, Htest. simp_salt.
  step_with Hrun. rewrite bool_decide_eq_false_2 by exact Herr.
  apply Z.eqb_neq in Hret. rewrite Hret. simp_salt.
  rewrite <- app_assoc. reflexivity.
Qed.

(** X7: a removal command that exits with a non-zero status, its stderr
    not being the not-installed message, makes [purged] fail with the
    normalised stdout and the raw stderr in [changes]; [snap list] is not
    run. *)
Theorem purged_nonzero_exit name (w : World Host) v h1 out h2 :
  pkg_info_installed (of_string "snapd") false (host w) = (Ret v, h1) ->
  truthy v = true ->
  opts_test = false ->
  cmd_run_all (of_string "snap remove --purge " ++ name) h1 = (Ret out, h2) ->
  stderr out <> not_installed_msg name ->
  retcode out <> 0%Z ->
  purged_on name w =
    (Ret {| name := name; result := Some false;
            changes := <["stdout" := _cleanup_stdout (stdout out)]>
                         (<["stderr" := stderr out]> ∅);
            comment := of_string "Non-zero return code when purging snap "
                       ++ quoted name ++ of_string "." |},
     {| host := h2;
        trace := trace w ++ [probe_event;
                             CmdRunAll (of_string "snap remove --purge "
                                        ++ name)] |}).
Proof. apply purged_failed_run. Qed.

(** X8: when the removal command exits with status zero but
    [snap list <name>] also exits with status zero, the snap is still
    there and [purged] fails, with stdout and stderr of the removal in
    [changes] and without the [old] and [new] entries. *)
Theorem purged_unverified_removal name (w : World Host) v h1 out h2 h3 :
  pkg_info_installed (of_string "snapd") false (host w) = (Ret v, h1) ->
  truthy v = true ->
  opts_test = false ->
  cmd_run_all (of_string "snap remove --purge " ++ name) h1 = (Ret out, h2) ->
  stderr out <> not_installed_msg name ->
  retcode out = 0%Z ->
  cmd_retcode (of_string "snap list " ++ name) true h2 = (Ret 0%Z, h3) ->
  purged_on name w =
    (Ret {| name := name; result := Some false;
            changes := <["stdout" := _cleanup_stdout (stdout out)]>
                         (<["stderr" := stderr out]> ∅);
            comment := of_string "Purging snap " ++ quoted name
                       ++ of_string " was unsuccessful." |},
     {| host := h3;
        trace := trace w ++ [probe_event;
                             CmdRunAll (of_string "snap remove --purge "
                                        ++ name);
                             CmdRetcode (of_string "snap list " ++ name)
                               true] |}).
Proof.
  intros Hprobe Hv Htest Hrun Herr Hret Hlist.
  unfold_salt. step_with Hprobe. rewrite Hv, Htest. simp_salt.
  step_with Hrun. rewrite bool_decide_eq_false_2 by exact Herr.
  rewrite Hret. cbn [Z.eqb]. simp_salt. step_with Hlist.
  rewrite <- !app_assoc. reflexivity.
Qed.

(** X9: in test mode [purged] runs no command: whatever the package query
    answers, the query is the only call, and a returned record has empty
    [changes]. *)
Theorem purged_test_mode_runs_nothing name (w : World Host) :
  match purged pkg_info_installed cmd_run_all cmd_retcode true name w with
  | (o, w') =>
      trace w' = trace w ++ [probe_event] /\
      host w' = snd (pkg_info_installed (of_string "snapd") false (host w)) /\
      match o with
      | Ret r => changes r = ∅
      | Raise _ => True
      end
  end.
Proof.
  unfold_salt.
  destruct (pkg_info_installed (of_string "snapd") false (host w))
    as [[v|e] h1]; simp_salt; [destruct (negb (truthy v))|];
    repeat split.
Qed.

(** X10: the returned record carries the name the function was called
    with. *)
Theorem returned_name_is_request nm (w : World Host) r w' :
  purged_on nm w = (Ret r, w') \/ assert_all_removed_on nm w = (Ret r, w') ->
  name r = nm.
Proof.
  intros [H | H]; revert H; unfold_salt; case_salt;
    intros [= <- <-] || discriminate; reflexivity.
Qed.

(** X11: the three shapes of a record returned by [purged]: empty
    [changes] with a result other than [False]; a failure with exactly
    [stdout] and [stderr]; a success with [old], [new], [stdout] and
    [stderr]. A failure never has [old] and [new], and a non-empty
    [changes] never comes with the result [None]. *)
Theorem purged_changes_shape nm (w : World Host) r w' :
  purged_on nm w = (Ret r, w') ->
  (changes r = ∅ /\ (result r = Some true \/ result r = None)) \/
  (result r = Some false /\
   exists so se, changes r = <["stdout" := so]> (<["stderr" := se]> ∅)) \/
  (result r = Some true /\
   exists so se,
     changes r = <["old" := of_string "installed"]>
                   (<["new" := of_string "removed"]>
                      (<["stdout" := so]> (<["stderr" := se]> ∅)))).
Proof.
  unfold_salt; case_salt; intros [= <- <-] || discriminate; simp_ret;
    first [ left; split; [reflexivity | auto; fail]
          | right; left; split; [reflexivity | eauto; fail]
          | right; right; split; [reflexivity | eauto] ].
Qed.

(** X12: the [stdout] entry that [purged] puts in [changes] is always the
    normalised text: it holds no carriage return and no line boundary
    other than line feeds. *)
Theorem purged_changes_stdout_normalised nm (w : World Host) r w' so :
  purged_on nm w = (Ret r, w') ->
  changes r !! "stdout" = Some so ->
  only_LF_breaks so = true /\ no_carriage_return so = true.
Proof.
  unfold_salt; case_salt; intros [= <- <-] || discriminate; simp_ret;
    intros Hso; simplify_map_eq;
    (split; [|apply only_LF_no_carriage_return]; apply cleanup_only_LF).
Qed.

(** X13: the calls [purged] makes are the package query, then the removal
    command, then [snap list <name>] with [ignore_retcode=True]: always a
    beginning of this sequence, whatever the collaborators answer. *)
Theorem purged_call_sequence nm (w : World Host) :
  match purged_on nm w with
  | (_, w') =>
      trace w' = trace w ++ [probe_event] \/
      trace w' = trace w ++ [probe_event; CmdRunAll (remove_cmd nm)] \/
      trace w' = trace w ++ [probe_event; CmdRunAll (remove_cmd nm);
                             CmdRetcode (list_cmd nm) true]
  end.
Proof.
  unfold remove_cmd, list_cmd. unfold_salt; case_salt; cbn [trace];
    rewrite <- ?app_assoc; auto.
Qed.

(** X14: the not-installed message of another snap does not count: with
    such a stderr and a non-zero exit status [purged] fails. *)
Theorem purged_other_snap_message nm nm' (w : World Host) v h1 out h2 :
  pkg_info_installed (of_string "snapd") false (host w) = (Ret v, h1) ->
  truthy v = true ->
  opts_test = false ->
  cmd_run_all (of_string "snap remove --purge " ++ nm) h1 = (Ret out, h2) ->
  stderr out = not_installed_msg nm' ->
  nm' <> nm ->
  retcode out <> 0%Z ->
  purged_on nm w =
    (Ret {| name := nm; result := Some false;
            changes := <["stdout" := _cleanup_stdout (stdout out)]>
                         (<["stderr" := not_installed_msg nm']> ∅);
            comment := of_string "Non-zero return code when purging snap "
                       ++ quoted nm ++ of_string "." |},
     {| host := h2;
        trace := trace w ++ [probe_event;
                             CmdRunAll (of_string "snap remove --purge "
                                        ++ nm)] |}).
Proof.
  intros Hprobe Hv Htest Hrun Herr Hne Hret.
  rewrite <- Herr.
  apply (purged_failed_run nm w v h1 out h2); try assumption.
  rewrite Herr. intros E. apply Hne, not_installed_msg_inj, E.
Qed.

(** X15: an exception of the package query is not caught: both state
    functions raise it, and no command is run. *)
Theorem probe_exception_propagates nm (w : World Host) e h1 :
  pkg_info_installed (of_string "snapd") false (host w) = (Raise e, h1) ->
  purged_on nm w =
    (Raise e, {| host := h1; trace := trace w ++ [probe_event] |}) /\
  assert_all_removed_on nm w =
    (Raise e, {| host := h1; trace := trace w ++ [probe_event] |}).
Proof.
  intros Hprobe. split; unfold_salt; step_with Hprobe; reflexivity.
Qed.

(** X16: with snapd present, the verdict of [assert_all_removed] is
    [True] exactly when stdout of [snap list] is empty and its stderr
    begins with "No snaps are installed", and [False] otherwise; the exit
    status of [snap list] plays no part. *)
Theorem assert_all_removed_verdict nm (w : World Host) v h1 out h2 :
  pkg_info_installed (of_string "snapd") false (host w) = (Ret v, h1) ->
  truthy v = true ->
  cmd_run_all (of_string "snap list") h1 = (Ret out, h2) ->
  exists r,
    assert_all_removed_on nm w =
      (Ret r, {| host := h2;
                 trace := trace w ++ [probe_event;
                                      CmdRunAll (of_string "snap list")] |})
    /\
    ((result r = Some true /\
      (stdout out = [] /\ exists t, stderr out = no_snaps_prefix ++ t)) \/
     (result r = Some false /\
      ~ (stdout out = [] /\ exists t, stderr out = no_snaps_prefix ++ t))).
Proof.
  intros Hprobe Hv Hrun.
  unfold_salt. step_with Hprobe. rewrite Hv. simp_salt. step_with Hrun.
  rewrite <- app_assoc.
  case_bool_decide as Eout; cbn [negb].
  - destruct (startswith (stderr out) (of_string "No snaps are installed"))
      eqn:Ep; eexists; (split; [reflexivity|]); simp_ret.
    + left. apply startswith_prefix in Ep. auto.
    + right. split; [reflexivity|]. intros [_ Ht].
      apply startswith_prefix in Ht. unfold no_snaps_prefix in Ht. congruence.
  - eexists. split; [reflexivity|]. simp_ret. right.
    split; [reflexivity|]. intros [E _]. contradiction.
Qed.

(** X17: when [snap list] prints anything on stdout, the comment of the
    failure holds that stdout verbatim, followed by the stderr, or by
    "(no errors)" when the stderr is empty. *)
Theorem assert_all_removed_snaps_left nm (w : World Host) v h1 out h2 :
  pkg_info_installed (of_string "snapd") false (host w) = (Ret v, h1) ->
  truthy v = true ->
  cmd_run_all (of_string "snap list") h1 = (Ret out, h2) ->
  stdout out <> [] ->
  fst (assert_all_removed_on nm w) =
    Ret {| name := nm; result := Some false; changes := ∅;
           comment :=
             of_string "It seems like at least one snap is still installed."
             ++ [LF] ++ of_string "Output:" ++ [LF] ++ stdout out
             ++ [LF] ++ of_string "Errors:" ++ [LF]
             ++ (if bool_decide (stderr out = [])
                 then of_string "(no errors)" else stderr out) |}.
Proof.
  intros Hprobe Hv Hrun Hout.
  unfold_salt. step_with Hprobe. rewrite Hv. simp_salt. step_with Hrun.
  rewrite bool_decide_eq_false_2 by exact Hout. cbn [negb fst].
  destruct (bool_decide (stderr out = [])); reflexivity.
Qed.

(** X18: an empty stdout with a stderr that does not begin with
    "No snaps are installed" is reported as a failed listing, the stderr
    in the comment; this includes a [snap list] that prints nothing at
    all. *)
Theorem assert_all_removed_listing_failed nm (w : World Host) v h1 out h2 :
  pkg_info_installed (of_string "snapd") false (host w) = (Ret v, h1) ->
  truthy v = true ->
  cmd_run_all (of_string "snap list") h1 = (Ret out, h2) ->
  stdout out = [] ->
  (forall t, stderr out <> no_snaps_prefix ++ t) ->
  fst (assert_all_removed_on nm w) =
    Ret {| name := nm; result := Some false; changes := ∅;
           comment :=
             of_string "Listing all installed snaps failed due to error."
             ++ [LF] ++ stderr out |}.
Proof.
  intros Hprobe Hv Hrun Hout Herr.
  unfold_salt. step_with Hprobe. rewrite Hv. simp_salt. step_with Hrun.
  rewrite bool_decide_eq_true_2 by exact Hout. cbn [negb].
  destruct (startswith (stderr out) (of_string "No snaps are installed"))
    eqn:Ep; [|reflexivity].
  apply startswith_prefix in Ep as [t Ht]. exfalso. apply (Herr t), Ht.
Qed.

(** X19: [assert_all_removed] never returns the result [None]: whatever
    the collaborators answer, a returned record says [True] or [False]. *)
Theorem assert_all_removed_decides nm (w : World Host) r w' :
  assert_all_removed_on nm w = (Ret r, w') ->
  result r = Some true \/ result r = Some false.
Proof.
  unfold_salt; case_salt; intros [= <- <-] || discriminate; simp_ret; auto.
Qed.

End MoreSaltProperties.

(** ** The further statements on sample machines *)

(** The stderr here is the not-installed message followed by a line feed,
    which is not the exact message. *)
Lemma purged_nonzero_exit_witness :
  purged pkg_present run_failed retcode_absent false (of_string "abc")
    sample_world =
    (Ret {| name := of_string "abc"; result := Some false;
            changes := <["stdout" := of_string "Removing snap abc"]>
                         (<["stderr" := not_installed_msg (of_string "abc")
                                        ++ [LF]]> ∅);
            comment := of_string "Non-zero return code when purging snap "
                       ++ quoted (of_string "abc") ++ of_string "." |},
     {| host := tt;
        trace := [PkgInfoInstalled (of_string "snapd") false;
                  CmdRunAll (remove_cmd (of_string "abc"))] |}).
Proof.
  apply (purged_nonzero_exit pkg_present run_failed retcode_absent false
           (of_string "abc") sample_world
           (PyDict [(of_string "snapd", PyDict [])]) tt
           (mk_cmd_output 4711 1 (of_string "Removing snap abc     /")
              (not_installed_msg (of_string "abc") ++ [LF])) tt);
    try reflexivity; discriminate.
Defined.

Lemma purged_unverified_removal_witness :
  purged pkg_present run_removed retcode_present false (of_string "abc")
    sample_world =
    (Ret {| name := of_string "abc"; result := Some false;
            changes := <["stdout" := _cleanup_stdout progress_frames]>
                         (<["stderr" := []]> ∅);
            comment := of_string "Purging snap " ++ quoted (of_string "abc")
                       ++ of_string " was unsuccessful." |},
     removed_world).
Proof.
  apply (purged_unverified_removal pkg_present run_removed retcode_present
           false (of_string "abc") sample_world
           (PyDict [(of_string "snapd", PyDict [])]) tt
           (mk_cmd_output 4711 0 progress_frames []) tt tt);
    try reflexivity; discriminate.
Defined.

Lemma returned_name_witness :
  purged pkg_present run_removed retcode_absent false (of_string "abc")
    sample_world = (Ret removed_record, removed_world) /\
  name removed_record = of_string "abc".
Proof.
  split; [reflexivity|].
  apply (returned_name_is_request pkg_present run_removed retcode_absent
           false (of_string "abc") sample_world removed_record
           removed_world).
  left. reflexivity.
Defined.

Lemma purged_changes_shape_witness :
  (changes removed_record = ∅ /\
   (result removed_record = Some true \/ result removed_record = None)) \/
  (result removed_record = Some false /\
   exists so se,
     changes removed_record = <["stdout" := so]> (<["stderr" := se]> ∅)) \/
  (result removed_record = Some true /\
   exists so se,
     changes removed_record =
       <["old" := of_string "installed"]>
         (<["new" := of_string "removed"]>
            (<["stdout" := so]> (<["stderr" := se]> ∅)))).
Proof.
  apply (purged_changes_shape pkg_present run_removed retcode_absent false
           (of_string "abc") sample_world removed_record removed_world).
  reflexivity.
Defined.

Lemma purged_changes_stdout_witness :
  changes removed_record !! "stdout" =
    Some (LF :: of_string "Removing snap abc") /\
  only_LF_breaks (LF :: of_string "Removing snap abc") = true /\
  no_carriage_return (LF :: of_string "Removing snap abc") = true.
Proof.
  split; [reflexivity|].
  apply (purged_changes_stdout_normalised pkg_present run_removed
           retcode_absent false (of_string "abc") sample_world
           removed_record removed_world);
    reflexivity.
Defined.

Lemma purged_other_snap_message_witness :
  purged pkg_present run_other_snap retcode_absent false (of_string "abc")
    sample_world =
    (Ret {| name := of_string "abc"; result := Some false;
            changes := <["stdout" := []]>
                         (<["stderr" := not_installed_msg
                                          (of_string "abcd")]> ∅);
            comment := of_string "Non-zero return code when purging snap "
                       ++ quoted (of_string "abc") ++ of_string "." |},
     {| host := tt;
        trace := [PkgInfoInstalled (of_string "snapd") false;
                  CmdRunAll (remove_cmd (of_string "abc"))] |}).
Proof.
  apply (purged_other_snap_message pkg_present run_other_snap retcode_absent
           false (of_string "abc") (of_string "abcd") sample_world
           (PyDict [(of_string "snapd", PyDict [])]) tt
           (mk_cmd_output 4711 1 [] (not_installed_msg (of_string "abcd")))
           tt);
    try reflexivity; discriminate.
Defined.

Lemma probe_exception_witness :
  purged pkg_raises run_removed retcode_absent false (of_string "abc")
    sample_world =
    (Raise (Exception (of_string "dpkg-query failed")),
     {| host := tt;
        trace := [PkgInfoInstalled (of_string "snapd") false] |}) /\
  assert_all_removed pkg_raises run_list_empty
    assert_all_removed_default_name sample_world =
    (Raise (Exception (of_string "dpkg-query failed")),
     {| host := tt;
        trace := [PkgInfoInstalled (of_string "snapd") false] |}).
Proof.
  split.
  - apply (probe_exception_propagates pkg_raises run_removed retcode_absent
             false (of_string "abc") sample_world
             (Exception (of_string "dpkg-query failed")) tt).
    reflexivity.
  - apply (probe_exception_propagates pkg_raises run_list_empty
             retcode_absent false assert_all_removed_default_name
             sample_world (Exception (of_string "dpkg-query failed")) tt).
    reflexivity.
Defined.

Lemma assert_all_removed_verdict_witness :
  exists r,
    assert_all_removed pkg_present run_list_empty
      assert_all_removed_default_name sample_world = (Ret r, listed_world)
    /\
    ((result r = Some true /\
      (@nil char = [] /\
       exists t,
         of_string "No snaps are installed yet. Try 'snap install hello-world'."
         = no_snaps_prefix ++ t)) \/
     (result r = Some false /\
      ~ (@nil char = [] /\
         exists t,
           of_string "No snaps are installed yet. Try 'snap install hello-world'."
           = no_snaps_prefix ++ t))).
Proof.
  apply (assert_all_removed_verdict pkg_present run_list_empty
           assert_all_removed_default_name sample_world
           (PyDict [(of_string "snapd", PyDict [])]) tt
           (mk_cmd_output 4712 0 []
              (of_string "No snaps are installed yet. Try 'snap install hello-world'."))
           tt);
    reflexivity.
Defined.

Lemma assert_all_removed_snaps_left_witness :
  fst (assert_all_removed pkg_present run_list_core_warn
         assert_all_removed_default_name sample_world) =
    Ret snaps_left_record.
Proof.
  apply (assert_all_removed_snaps_left pkg_present run_list_core_warn
           assert_all_removed_default_name sample_world
           (PyDict [(of_string "snapd", PyDict [])]) tt
           (mk_cmd_output 4712 0
              (of_string "core22 20240111 1122 latest/stable")
              (of_string "WARNING: there is 1 new warning")) tt);
    try reflexivity; discriminate.
Defined.

(** [snap list] prints nothing at all here. *)
Lemma assert_all_removed_listing_failed_witness :
  fst (assert_all_removed pkg_present run_list_silent
         assert_all_removed_default_name sample_world) =
    Ret {| name := assert_all_removed_default_name; result := Some false;
           changes := ∅;
           comment :=
             of_string "Listing all installed snaps failed due to error."
             ++ [LF] ++ [] |}.
Proof.
  apply (assert_all_removed_listing_failed pkg_present run_list_silent
           assert_all_removed_default_name sample_world
           (PyDict [(of_string "snapd", PyDict [])]) tt
           (mk_cmd_output 4712 1 [] []) tt);
    try reflexivity.
  intros t. discriminate.
Defined.

Lemma assert_all_removed_decides_witness :
  assert_all_removed pkg_present run_list_core_warn
    assert_all_removed_default_name sample_world =
    (Ret snaps_left_record, listed_world) /\
  (result snaps_left_record = Some true \/
   result snaps_left_record = Some false).
Proof.
  split; [reflexivity|].
  apply (assert_all_removed_decides pkg_present run_list_core_warn
           assert_all_removed_default_name sample_world snaps_left_record
           listed_world).
  reflexivity.
Defined.
